(** * WhatsApp webhook adapter: a model of [lambda_function_03_bedrock.py]

    The handler of the third lambda (verification handshake, delivery
    payload extraction, agent invocation, outbound reply) as Rocq
    functions over Python values.  The external collaborators (JSON
    parser, audit store, agent backend, HTTP transport) are the fields
    of a record the functions take as an argument, and every call that
    leaves the process is recorded in a trace.  Definitions come
    first, proofs after them. *)

From Stdlib Require Import List String Ascii NArith ZArith Bool Lia.
From Stdlib Require Import Floats.SpecFloat.
From Stdlib Require Init.Byte.
Import ListNotations.

Set Warnings "-register-all".
Local Open Scope N_scope.

(* ------------------------------------------------------------------ *)
(** ** Python strings and values *)

(** A Python [str] is a sequence of Unicode code points. *)
Definition pystr := list N.

(** An ASCII literal of the source as a [pystr]. *)
Definition str (s : string) : pystr :=
  map N_of_ascii (list_ascii_of_string s).

Fixpoint pystr_eqb (a b : pystr) : bool :=
  match a, b with
  | [], [] => true
  | x :: a', y :: b' => (x =? y) && pystr_eqb a' b'
  | _, _ => false
  end.

(** The values [json.loads] produces, which are also the values the
    handler passes around. *)
Inductive pyval : Type :=
| PNone
| PBool (b : bool)
| PInt (z : Z)
| PFloat (f : spec_float)
| PStr (s : pystr)
| PList (l : list pyval)
| PDict (d : list (pystr * pyval)).

(** [bool(v)]: the truth value Python gives a value in [if] and [not]. *)
Definition truthy (v : pyval) : bool :=
  match v with
  | PNone => false
  | PBool b => b
  | PInt z => negb (Z.eqb z 0)
  | PFloat (S754_zero _) => false
  | PFloat _ => true
  | PStr s => match s with [] => false | _ => true end
  | PList l => match l with [] => false | _ => true end
  | PDict d => match d with [] => false | _ => true end
  end.

(** [type(v).__name__], as it appears in CPython's error messages. *)
Definition type_name (v : pyval) : pystr :=
  match v with
  | PNone => str "NoneType"
  | PBool _ => str "bool"
  | PInt _ => str "int"
  | PFloat _ => str "float"
  | PStr _ => str "str"
  | PList _ => str "list"
  | PDict _ => str "dict"
  end.

(** [v == s] for a [str] [s]: only an equal [str] compares equal. *)
Definition eq_str (v : pyval) (s : pystr) : bool :=
  match v with
  | PStr t => pystr_eqb t s
  | _ => false
  end.

(** Lookup in a dictionary kept as an association list. *)
Fixpoint dict_lookup {A : Type} (k : pystr) (d : list (pystr * A)) : option A :=
  match d with
  | [] => None
  | (k', v) :: rest => if pystr_eqb k' k then Some v else dict_lookup k rest
  end.

(* ------------------------------------------------------------------ *)
(** ** Exceptions *)

Inductive exn_class : Type :=
| IndexError
| KeyError
| AttributeError
| TypeError
| JSONDecodeError
| UnicodeDecodeError
| ClientError          (* botocore.exceptions.ClientError and subclasses *)
| BotoCoreError        (* time-outs, connection and validation errors *)
| OtherException.      (* any other subclass of Exception *)

(** An exception: its class and [str(e)]. *)
Record exn : Type := mkExn { exn_class_of : exn_class; exn_descr : pystr }.

Definition is_ClientError (e : exn) : bool :=
  match exn_class_of e with
  | ClientError => true
  | _ => false
  end.

(** The messages CPython gives for the two type errors the payload walk
    can meet. *)
Definition attribute_error (v : pyval) (attr : string) : exn :=
  mkExn AttributeError
        (str "'" ++ type_name v ++ str "' object has no attribute '" ++ str attr ++ str "'").

Definition not_subscriptable (v : pyval) : exn :=
  mkExn TypeError (str "'" ++ type_name v ++ str "' object is not subscriptable").

(** [v.get(key, default)]: defined on dictionaries only. *)
Definition py_get (v : pyval) (key : string) (default : pyval) : exn + pyval :=
  match v with
  | PDict d => match dict_lookup (str key) d with
               | Some x => inr x
               | None => inr default
               end
  | _ => inl (attribute_error v "get")
  end.

(** [v[0]]. *)
Definition py_index0 (v : pyval) : exn + pyval :=
  match v with
  | PList (x :: _) => inr x
  | PList [] => inl (mkExn IndexError (str "list index out of range"))
  | PStr (c :: _) => inr (PStr [c])
  | PStr [] => inl (mkExn IndexError (str "string index out of range"))
  | PDict _ => inl (mkExn KeyError (str "0"))
  | _ => inl (not_subscriptable v)
  end.

(* ------------------------------------------------------------------ *)
(** ** [json.dumps] on the dictionaries the handler serialises *)

Definition hex_digit (n : N) : N :=
  if n <? 10 then 48 + n else 87 + n.

(** Code points of the characters the encoder writes. *)
Definition quote : N := 34.
Definition backslash : N := 92.

(** A backslash, the letter u and four lower-case hexadecimal digits. *)
Definition u_escape (n : N) : pystr :=
  [backslash; 117; hex_digit (n / 4096 mod 16); hex_digit (n / 256 mod 16);
   hex_digit (n / 16 mod 16); hex_digit (n mod 16)].

(** One code point under [json.encoder.py_encode_basestring_ascii]:
    the quote, the backslash and the five control characters with a
    short form get it; the rest of printable ASCII is kept; everything
    else is written as one escape, or as a surrogate pair above the
    basic plane. *)
Definition escape_char (c : N) : pystr :=
  if c =? quote then [backslash; quote]
  else if c =? backslash then [backslash; backslash]
  else if c =? 10 then [backslash; 110]
  else if c =? 13 then [backslash; 114]
  else if c =? 9 then [backslash; 116]
  else if c =? 12 then [backslash; 102]
  else if c =? 8 then [backslash; 98]
  else if (32 <=? c) && (c <=? 126) then [c]
  else if c <? 65536 then u_escape c
  else let n := c - 65536 in
       u_escape (N.lor 55296 (N.land (N.shiftr n 10) 1023))
       ++ u_escape (N.lor 56320 (N.land n 1023)).

Definition py_encode_basestring_ascii (s : pystr) : pystr :=
  [quote] ++ flat_map escape_char s ++ [quote].

Fixpoint join (sep : pystr) (l : list pystr) : pystr :=
  match l with
  | [] => []
  | [x] => x
  | x :: rest => x ++ sep ++ join sep rest
  end.

(** [json.dumps(d)] for a dictionary [d] with [str] keys and [str]
    values, the only shape the handler's responses serialise. *)
Definition json_dumps (d : list (pystr * pystr)) : pystr :=
  str "{"
  ++ join (str ", ")
          (map (fun kv => py_encode_basestring_ascii (fst kv) ++ str ": "
                          ++ py_encode_basestring_ascii (snd kv)) d)
  ++ str "}".

(* ------------------------------------------------------------------ *)
(** ** [bytes.decode('utf-8')] *)

Definition is_cont (b : N) : bool := (128 <=? b) && (b <=? 191).
Definition between (lo hi b : N) : bool := (lo <=? b) && (b <=? hi).

(** Strict UTF-8: shortest forms only, no surrogates, nothing above
    U+10FFFF; [None] where CPython raises [UnicodeDecodeError]. *)
Fixpoint utf8_decode_N (bs : list N) : option pystr :=
  match bs with
  | [] => Some []
  | b0 :: r0 =>
    if b0 <? 128 then option_map (cons b0) (utf8_decode_N r0)
    else if between 194 223 b0 then
      match r0 with
      | b1 :: r1 =>
        if is_cont b1
        then option_map (cons ((b0 - 192) * 64 + (b1 - 128))) (utf8_decode_N r1)
        else None
      | _ => None
      end
    else if between 224 239 b0 then
      match r0 with
      | b1 :: b2 :: r2 =>
        if between (if b0 =? 224 then 160 else 128)
                   (if b0 =? 237 then 159 else 191) b1 && is_cont b2
        then option_map
               (cons ((b0 - 224) * 4096 + (b1 - 128) * 64 + (b2 - 128)))
               (utf8_decode_N r2)
        else None
      | _ => None
      end
    else if between 240 244 b0 then
      match r0 with
      | b1 :: b2 :: b3 :: r3 =>
        if between (if b0 =? 240 then 144 else 128)
                   (if b0 =? 244 then 143 else 191) b1
           && is_cont b2 && is_cont b3
        then option_map
               (cons ((b0 - 240) * 262144 + (b1 - 128) * 4096
                      + (b2 - 128) * 64 + (b3 - 128)))
               (utf8_decode_N r3)
        else None
      | _ => None
      end
    else None
  end.

Definition utf8_decode (bs : list Byte.byte) : option pystr :=
  utf8_decode_N (map Byte.to_N bs).

(** The bytes of an ASCII literal, for examples. *)
Definition bytes_of (s : string) : list Byte.byte :=
  map byte_of_ascii (list_ascii_of_string s).

(* ------------------------------------------------------------------ *)
(** ** Requests, responses, collaborators *)

(** The API Gateway proxy event, as far as the handler reads it.  A
    field is [None] when the key is absent; [queryStringParameters] is
    also [None] when the gateway sends [null]. *)
Record gateway_event : Type := {
  httpMethod : option pystr;
  queryStringParameters : option (list (pystr * pystr));
  event_body : option pyval
}.

(** The dictionary the handler returns. *)
Record response : Type := { statusCode : Z; body : pyval }.

(** One event of the agent's completion stream: a dictionary that may
    have a ['chunk'] entry (itself with or without ['bytes']) and a
    ['trace'] entry. *)
Record chunk_payload : Type := { bytes : option (list Byte.byte) }.
Record agent_event : Type := {
  chunk : option chunk_payload;
  trace : option pyval
}.

(** The object under ['completion'].  Python asks it for its truth
    value before iterating: a plain sequence is false when empty,
    botocore's [EventStream] defines neither [__bool__] nor [__len__]
    and is always true. *)
Inductive completion : Type :=
| EventList (evs : list agent_event)
| EventStream (evs : list agent_event).

Definition completion_truthy (c : option completion) : bool :=
  match c with
  | None => false
  | Some (EventList []) => false
  | Some _ => true
  end.

Definition completion_events (c : option completion) : list agent_event :=
  match c with
  | None => []
  | Some (EventList evs) | Some (EventStream evs) => evs
  end.

(** The keyword arguments of [invoke_agent]. *)
Record invoke_args : Type := {
  agentId : option pystr;
  agentAliasId : pystr;
  sessionId : pyval;
  inputText : pyval;
  sessionState : option pyval
}.

(** What [store_event_to_s3] is asked to persist. *)
Inductive stored : Type :=
| StoredEvent (ev : gateway_event)
| StoredValue (v : pyval).

Inductive log_level : Type := DEBUG | INFO | WARNING | ERROR.

Inductive log_record : Type :=
| LogSent (to_number : pyval) (status : Z) (data : pystr)
| LogSendFailed (e : exn)
| LogTrace (t : pyval)
| LogUnexpectedEvent (ev : agent_event)
| LogInvokeError (e : exn)
| LogStored (prefix : pystr)
| LogStoreFailed (prefix : pystr) (e : exn)
| LogReceivedFrom (from_number : pyval)
| LogPostError (e : exn).

(** Calls that leave the process, in the order they are made. *)
Inductive effect : Type :=
| PutObject (prefix : pystr) (data : stored)
| InvokeAgent (args : invoke_args)
| HttpPost (url : pystr) (payload : pyval) (headers : list (pystr * pystr))
| Log (level : log_level) (r : log_record).

(** Environment variables read at import time. *)
Record config : Type := {
  VERIFY_TOKEN : pystr;
  ACCESS_TOKEN : option pystr;
  PHONE_NUMBER_ID : option pystr;
  API_VERSION : pystr;
  BEDROCK_AGENT_ID : option pystr;
  BEDROCK_ALIAS_ID : pystr;
  BUCKET_NAME : pystr
}.

(** The collaborators, as functions of their arguments: the JSON
    parser, the audit store (its key carries a time stamp, which is
    left to the store), the agent backend and the HTTP client.
    [decode_error_text] is the text of CPython's [UnicodeDecodeError]
    for undecodable bytes. *)
Record world : Type := {
  json_loads : pyval -> exn + pyval;
  put_object : pystr -> stored -> option exn;
  bedrock_invoke_agent : invoke_args -> exn + option completion;
  http_request : pystr -> pyval -> list (pystr * pystr)
                 -> exn + (Z * list Byte.byte);
  decode_error_text : list Byte.byte -> pystr
}.

(* ------------------------------------------------------------------ *)
(** ** A trace-and-exception monad *)

Definition M (A : Type) : Type := (list effect * (exn + A))%type.

Definition ret {A : Type} (a : A) : M A := ([], inr a).
Definition raise {A : Type} (e : exn) : M A := ([], inl e).
Definition lift {A : Type} (r : exn + A) : M A := ([], r).
Definition emit (x : effect) : M unit := ([x], inr tt).

Definition bind {A B : Type} (m : M A) (f : A -> M B) : M B :=
  match m with
  | (t, inl e) => (t, inl e)
  | (t, inr a) => (t ++ fst (f a), snd (f a))
  end.

(** [try: m  except <classes>: h]. *)
Definition try_except {A : Type} (m : M A) (catches : exn -> bool)
           (h : exn -> M A) : M A :=
  match m with
  | (t, inl e) => if catches e then (t ++ fst (h e), snd (h e)) else (t, inl e)
  | (t, inr a) => (t, inr a)
  end.

Definition except_Exception (e : exn) : bool := true.

Notation "x <- m ;; k" := (bind m (fun x => k))
  (at level 61, m at next level, right associativity).
Notation "m ;;; k" := (bind m (fun _ => k))
  (at level 61, right associativity).

Definition trace_of {A : Type} (m : M A) : list effect := fst m.
Definition result_of {A : Type} (m : M A) : exn + A := snd m.

(* ------------------------------------------------------------------ *)
(** ** The functions of the handler *)

Section Handler.

Variable cfg : config.
Variable w : world.

(** [f"{x}"] for a setting that may be unset. *)
Definition format_setting (x : option pystr) : pystr :=
  match x with
  | Some s => s
  | None => str "None"
  end.

Definition WHATSAPP_API_URL : pystr :=
  str "https://graph.facebook.com/" ++ API_VERSION cfg ++ str "/"
  ++ format_setting (PHONE_NUMBER_ID cfg) ++ str "/messages".

Definition bytes_decode (b : list Byte.byte) : exn + pystr :=
  match utf8_decode b with
  | Some s => inr s
  | None => inl (mkExn UnicodeDecodeError (decode_error_text w b))
  end.

Definition auth_headers : list (pystr * pystr) :=
  [ (str "Authorization", str "Bearer " ++ format_setting (ACCESS_TOKEN cfg));
    (str "Content-Type", str "application/json") ].

Definition message_payload (to_number : pyval) (message_body : pystr) : pyval :=
  PDict [ (str "messaging_product", PStr (str "whatsapp"));
          (str "to", to_number);
          (str "type", PStr (str "text"));
          (str "text", PDict [ (str "body", PStr message_body) ]) ].

Definition send_whatsapp_message (to_number : pyval) (message_body : pystr)
  : M unit :=
  let headers := auth_headers in
  let payload := message_payload to_number message_body in
  try_except
    (emit (HttpPost WHATSAPP_API_URL payload headers) ;;;
     resp <- lift (http_request w WHATSAPP_API_URL payload headers) ;;
     data <- lift (bytes_decode (snd resp)) ;;
     emit (Log INFO (LogSent to_number (fst resp) data)))
    except_Exception
    (fun e => emit (Log ERROR (LogSendFailed e))).

(** The [for event in completion] loop, from the accumulator it has
    reached. *)
Fixpoint aggregate (full_response : pystr) (events : list agent_event)
  : M pystr :=
  match events with
  | [] => ret full_response
  | event :: rest =>
    match chunk event with
    | Some {| bytes := Some b |} =>
      text <- lift (bytes_decode b) ;;
      aggregate (full_response ++ text) rest
    | _ =>
      match trace event with
      | Some t =>
        emit (Log DEBUG (LogTrace t)) ;;; aggregate full_response rest
      | None =>
        emit (Log WARNING (LogUnexpectedEvent event)) ;;;
        aggregate full_response rest
      end
    end
  end.

Definition no_response : pystr := str "No response from the agent.".

Definition invoke_agent (query current_conversation_id session_state : pyval)
  : M pystr :=
  let invoke_args :=
    {| agentId := BEDROCK_AGENT_ID cfg;
       agentAliasId := BEDROCK_ALIAS_ID cfg;
       sessionId := current_conversation_id;
       inputText := query;
       sessionState := if truthy session_state then Some session_state
                       else None |} in
  try_except
    (emit (InvokeAgent invoke_args) ;;;
     completion <- lift (bedrock_invoke_agent w invoke_args) ;;
     if negb (completion_truthy completion) then ret no_response
     else aggregate [] (completion_events completion))
    is_ClientError
    (fun error =>
       emit (Log ERROR (LogInvokeError error)) ;;;
       ret (str "Error invoking agent: " ++ exn_descr error)).

Definition store_event_to_s3 (prefix : pystr) (data : stored) : M unit :=
  emit (PutObject prefix data) ;;;
  match put_object w prefix data with
  | None => emit (Log INFO (LogStored prefix))
  | Some e => emit (Log ERROR (LogStoreFailed prefix e))
  end.

(** The chain of look-ups that reaches the [messages] array. *)
Definition walk_messages (parsed_body : pyval) : exn + pyval :=
  match py_get parsed_body "entry" (PList []) with
  | inl e => inl e
  | inr entry =>
    match py_index0 entry with
    | inl e => inl e
    | inr entry0 =>
      match py_get entry0 "changes" (PList []) with
      | inl e => inl e
      | inr changes =>
        match py_index0 changes with
        | inl e => inl e
        | inr change0 =>
          match py_get change0 "value" (PDict []) with
          | inl e => inl e
          | inr value => py_get value "messages" (PList [])
          end
        end
      end
    end
  end.

Definition json_response (code : Z) (key : string) (text : pystr) : response :=
  {| statusCode := code; body := PStr (json_dumps [ (str key, text) ]) |}.

(** The body of the [try] of the POST branch. *)
Definition handle_post (raw_body : pyval) : M response :=
  parsed_body <- lift (json_loads w raw_body) ;;
  messages <- lift (walk_messages parsed_body) ;;
  if negb (truthy messages) then
    ret (json_response 200 "message" (str "No message object found in webhook"))
  else
    message <- lift (py_index0 messages) ;;
    from_number <- lift (py_get message "from" PNone) ;;
    text <- lift (py_get message "text" (PDict [])) ;;
    text_message <- lift (py_get text "body" (PStr (str ""))) ;;
    emit (Log INFO (LogReceivedFrom from_number)) ;;;
    assistant_response <- invoke_agent text_message from_number PNone ;;
    send_whatsapp_message from_number assistant_response ;;;
    ret (json_response 200 "message" (str "Message processed")).

Definition params_get (params : list (pystr * pystr)) (key : string) : pyval :=
  match dict_lookup (str key) params with
  | Some s => PStr s
  | None => PNone
  end.

Definition lambda_handler (event : gateway_event) : M response :=
  let http_method :=
    match httpMethod event with Some m => m | None => str "" end in
  let raw_body :=
    match event_body event with Some b => b | None => PStr (str "{}") end in
  store_event_to_s3 (str "event") (StoredEvent event) ;;;
  store_event_to_s3 (str "body") (StoredValue raw_body) ;;;
  if pystr_eqb http_method (str "GET") then
    let params :=
      match queryStringParameters event with Some p => p | None => [] end in
    let mode := params_get params "hub.mode" in
    let token := params_get params "hub.verify_token" in
    let challenge := params_get params "hub.challenge" in
    if eq_str mode (str "subscribe") && eq_str token (VERIFY_TOKEN cfg) then
      ret {| statusCode := 200; body := challenge |}
    else
      ret (json_response 403 "error" (str "Invalid verification token"))
  else if pystr_eqb http_method (str "POST") then
    try_except
      (handle_post raw_body)
      except_Exception
      (fun e =>
         emit (Log ERROR (LogPostError e)) ;;;
         ret (json_response 500 "error" (exn_descr e)))
  else
    ret (json_response 405 "error"
           (str "Method " ++ http_method ++ str " not allowed")).

End Handler.

(* ------------------------------------------------------------------ *)
(** ** Reading a trace *)

(** The calls made to the agent backend, in order. *)
Definition agent_calls (t : list effect) : list invoke_args :=
  flat_map (fun x => match x with InvokeAgent a => [a] | _ => [] end) t.

(** The payloads handed to the messaging transport, in order. *)
Definition sends (t : list effect) : list pyval :=
  flat_map (fun x => match x with HttpPost _ p _ => [p] | _ => [] end) t.

(** The records written to the log at a given level, in order. *)
Definition logged (lvl : log_level) (t : list effect) : list log_record :=
  flat_map (fun x => match x with
                     | Log l r => match l, lvl with
                                  | DEBUG, DEBUG | INFO, INFO
                                  | WARNING, WARNING | ERROR, ERROR => [r]
                                  | _, _ => []
                                  end
                     | _ => []
                     end) t.

(* ------------------------------------------------------------------ *)
(** ** Notions used in the statements *)

(** The byte strings of the chunk events of a stream, in order. *)
Definition chunk_bytes (events : list agent_event) : list (list Byte.byte) :=
  flat_map (fun ev => match chunk ev with
                      | Some {| bytes := Some b |} => [b]
                      | _ => []
                      end) events.

(** [event.get('body', '{}')] and [event.get('httpMethod', '')]. *)
Definition raw_body_of (event : gateway_event) : pyval :=
  match event_body event with Some b => b | None => PStr (str "{}") end.
Definition method_of (event : gateway_event) : pystr :=
  match httpMethod event with Some m => m | None => str "" end.

(** The sender and the text the specification assigns to a message
    object: its [from] member, and the [body] of its [text] member with
    the empty string for a missing [text] or a missing [body].  The
    text is undefined when [text] is present and not an object. *)
Definition spec_sender (m : list (pystr * pyval)) : pyval :=
  match dict_lookup (str "from") m with
  | Some v => v
  | None => PNone
  end.

Definition spec_text (m : list (pystr * pyval)) : option pyval :=
  match dict_lookup (str "text") m with
  | None => Some (PStr (str ""))
  | Some (PDict t) =>
    match dict_lookup (str "body") t with
    | Some v => Some v
    | None => Some (PStr (str ""))
    end
  | Some _ => None
  end.

(** An event the loop takes for a chunk: it has a ['chunk'] entry with
    ['bytes'] in it. *)
Definition is_chunk (ev : agent_event) : bool :=
  match chunk ev with
  | Some {| bytes := Some _ |} => true
  | _ => false
  end.

(** A character the encoder writes as it is. *)
Definition plain (c : N) : bool :=
  (32 <=? c) && (c <=? 126) && negb (c =? quote) && negb (c =? backslash).

(** The world with another HTTP client. *)
Definition with_transport (w : world)
           (h : pystr -> pyval -> list (pystr * pystr)
                -> exn + (Z * list Byte.byte)) : world :=
  {| json_loads := json_loads w;
     put_object := put_object w;
     bedrock_invoke_agent := bedrock_invoke_agent w;
     http_request := h;
     decode_error_text := decode_error_text w |}.

Section Views.

Variable cfg : config.
Variable w : world.

(** The branch on the method, which [lambda_handler] reaches after the
    two audit writes. *)
Definition after_audit (event : gateway_event) : M response :=
  let http_method :=
    match httpMethod event with Some m => m | None => str "" end in
  let raw_body :=
    match event_body event with Some b => b | None => PStr (str "{}") end in
  if pystr_eqb http_method (str "GET") then
    let params :=
      match queryStringParameters event with Some p => p | None => [] end in
    if eq_str (params_get params "hub.mode") (str "subscribe")
       && eq_str (params_get params "hub.verify_token") (VERIFY_TOKEN cfg) then
      ret {| statusCode := 200; body := params_get params "hub.challenge" |}
    else
      ret (json_response 403 "error" (str "Invalid verification token"))
  else if pystr_eqb http_method (str "POST") then
    try_except
      (handle_post cfg w raw_body)
      except_Exception
      (fun e =>
         emit (Log ERROR (LogPostError e)) ;;;
         ret (json_response 500 "error" (exn_descr e)))
  else
    ret (json_response 405 "error"
           (str "Method " ++ http_method ++ str " not allowed")).

(** The arguments the dispatcher's call passes to the backend. *)
Definition call_args (query session : pyval) : invoke_args :=
  {| agentId := BEDROCK_AGENT_ID cfg;
     agentAliasId := BEDROCK_ALIAS_ID cfg;
     sessionId := session;
     inputText := query;
     sessionState := None |}.

(** What the handler does once it holds a sender and a text. *)
Definition process (query from_number : pyval) : M response :=
  emit (Log INFO (LogReceivedFrom from_number)) ;;;
  assistant_response <- invoke_agent cfg w query from_number PNone ;;
  send_whatsapp_message cfg w from_number assistant_response ;;;
  ret (json_response 200 "message" (str "Message processed")).

End Views.

(* ------------------------------------------------------------------ *)
(** ** Stand-ins for the collaborators, for the examples *)

(** A parser that knows the documents of a table and rejects every
    other text the way [json.loads] rejects the empty document. *)
Definition loads_table (docs : list (pystr * pyval)) (raw : pyval)
  : exn + pyval :=
  match raw with
  | PStr s =>
    match dict_lookup s docs with
    | Some v => inr v
    | None => inl (mkExn JSONDecodeError
                         (str "Expecting value: line 1 column 1 (char 0)"))
    end
  | _ => inl (mkExn TypeError
                    (str "the JSON object must be str, bytes or bytearray, not "
                     ++ type_name raw))
  end.

Definition sample_cfg : config :=
  {| VERIFY_TOKEN := str "SECRET";
     ACCESS_TOKEN := Some (str "token");
     PHONE_NUMBER_ID := Some (str "1234567890");
     API_VERSION := str "v22.0";
     BEDROCK_AGENT_ID := Some (str "AGENT");
     BEDROCK_ALIAS_ID := str "TSTALIASID";
     BUCKET_NAME := str "your-bucket-name" |}.

(** A world built from a document table, an agent and a transport; the
    audit store accepts everything. *)
Definition sample_world (docs : list (pystr * pyval))
           (agent : invoke_args -> exn + option completion)
           (transport : exn + (Z * list Byte.byte)) : world :=
  {| json_loads := loads_table docs;
     put_object := fun _ _ => None;
     bedrock_invoke_agent := agent;
     http_request := fun _ _ _ => transport;
     decode_error_text := fun _ => str "'utf-8' codec can't decode bytes" |}.

Definition chunk_event (s : string) : agent_event :=
  {| chunk := Some {| bytes := Some (bytes_of s) |}; trace := None |}.
Definition trace_event : agent_event :=
  {| chunk := None; trace := Some (PDict []) |}.
Definition unknown_event : agent_event :=
  {| chunk := None; trace := None |}.

Definition transport_ok : exn + (Z * list Byte.byte) :=
  inr (200%Z, bytes_of "{}").
Definition transport_down : exn + (Z * list Byte.byte) :=
  inl (mkExn OtherException (str "Connection refused")).

(** JSON texts of the examples and the values [json.loads] gives for
    them. *)
Definition qt (s : string) : pystr := [quote] ++ str s ++ [quote].

Definition json_delivery (value_members : pystr) : pystr :=
  str "{" ++ qt "entry" ++ str ":[{" ++ qt "changes" ++ str ":[{"
  ++ qt "value" ++ str ":{" ++ value_members ++ str "}}]}]}".
Definition json_messages (msgs : pystr) : pystr :=
  qt "messages" ++ str ":[" ++ msgs ++ str "]".
Definition json_hi : pystr :=
  str "{" ++ qt "from" ++ str ":" ++ qt "15551234567" ++ str ","
  ++ qt "text" ++ str ":{" ++ qt "body" ++ str ":" ++ qt "hi" ++ str "}}".
Definition json_later : pystr :=
  str "{" ++ qt "from" ++ str ":" ++ qt "999" ++ str ","
  ++ qt "text" ++ str ":{" ++ qt "body" ++ str ":" ++ qt "later" ++ str "}}".
Definition json_image : pystr :=
  str "{" ++ qt "from" ++ str ":" ++ qt "15551234567" ++ str ","
  ++ qt "type" ++ str ":" ++ qt "image" ++ str "}".

Definition delivery (value_members : list (pystr * pyval)) : pyval :=
  PDict [ (str "entry",
           PList [ PDict [ (str "changes",
             PList [ PDict [ (str "value", PDict value_members) ] ]) ] ]) ].
Definition hi_message : pyval :=
  PDict [ (str "from", PStr (str "15551234567"));
          (str "text", PDict [ (str "body", PStr (str "hi")) ]) ].
Definition later_message : pyval :=
  PDict [ (str "from", PStr (str "999"));
          (str "text", PDict [ (str "body", PStr (str "later")) ]) ].
Definition image_message : pyval :=
  PDict [ (str "from", PStr (str "15551234567"));
          (str "type", PStr (str "image")) ].

Definition scenario_docs : list (pystr * pyval) :=
  [ (str "{}", PDict []);
    (json_delivery (json_messages json_hi),
     delivery [ (str "messages", PList [hi_message]) ]);
    (json_delivery (json_messages (json_hi ++ str "," ++ json_later)),
     delivery [ (str "messages", PList [hi_message; later_message]) ]);
    (json_delivery (json_messages json_image),
     delivery [ (str "messages", PList [image_message]) ]);
    (json_delivery (qt "statuses" ++ str ":[]"),
     delivery [ (str "statuses", PList []) ]) ].

Definition post_event (raw : pystr) : gateway_event :=
  {| httpMethod := Some (str "POST");
     queryStringParameters := None;
     event_body := Some (PStr raw) |}.

(** A POST event without a ['body'] key. *)
Definition bodiless_post_event : gateway_event :=
  {| httpMethod := Some (str "POST");
     queryStringParameters := None;
     event_body := None |}.

Definition get_event (params : list (pystr * pystr)) : gateway_event :=
  {| httpMethod := Some (str "GET");
     queryStringParameters := Some params;
     event_body := None |}.

Definition agent_says (evs : list agent_event)
  : invoke_args -> exn + option completion :=
  fun _ => inr (Some (EventStream evs)).
Definition agent_fails (e : exn) : invoke_args -> exn + option completion :=
  fun _ => inl e.

(** Worlds of the examples: an agent that streams nothing, one that
    answers "Hello there" in two chunks, one whose call fails, and one
    whose reply cannot be delivered. *)
Definition quiet_world : world :=
  sample_world scenario_docs (agent_says []) transport_ok.

Definition hello_world : world :=
  sample_world scenario_docs
               (agent_says [chunk_event "Hello"; chunk_event " there"])
               transport_ok.

Definition failing_world (e : exn) : world :=
  sample_world scenario_docs (agent_fails e) transport_ok.

Definition undelivered_world : world :=
  sample_world scenario_docs
               (agent_says [chunk_event "Hello"; chunk_event " there"])
               transport_down.

(** A backend that answers without a ['completion'] entry. *)
Definition silent_agent : invoke_args -> exn + option completion :=
  fun _ => inr None.

(** A service error and a transport error of the backend call. *)
Definition throttled : exn :=
  mkExn ClientError
        (str "An error occurred (ThrottlingException) when calling the InvokeAgent operation: Rate exceeded").

Definition timed_out : exn :=
  mkExn BotoCoreError (str "Read timeout on endpoint URL").

(** The query string of the handshake scenario. *)
Definition handshake_params : list (pystr * pystr) :=
  [ (str "hub.mode", str "subscribe");
    (str "hub.verify_token", str "SECRET");
    (str "hub.challenge", str "XYZ123") ].

(** Requests with a method the handler does not serve, and with none. *)
Definition delete_event : gateway_event :=
  {| httpMethod := Some (str "DELETE");
     queryStringParameters := None;
     event_body := None |}.
Definition no_method_event : gateway_event :=
  {| httpMethod := None; queryStringParameters := None; event_body := None |}.

(** Deliveries of one message and of two. *)
Definition hi_event : gateway_event :=
  post_event (json_delivery (json_messages json_hi)).

Definition two_messages_event : gateway_event :=
  post_event (json_delivery (json_messages (json_hi ++ str "," ++ json_later))).

(** A stream of three chunks with a trace and an unknown event between
    them. *)
Definition hello_events : list agent_event :=
  [ chunk_event "Hel"; trace_event; chunk_event "lo, "; unknown_event;
    chunk_event "world" ].

(* ------------------------------------------------------------------ *)
(** ** Settings, and two more readers of a trace *)

(** [os.environ], and the module-level reads of it in
    [lambda_function_03_bedrock.py]. *)
Definition environ := list (pystr * pystr).

Definition environ_get (env : environ) (key : string) : option pystr :=
  dict_lookup (str key) env.

Definition environ_get_default (env : environ) (key default : string) : pystr :=
  match dict_lookup (str key) env with
  | Some v => v
  | None => str default
  end.

Definition load_config (env : environ) : config :=
  {| VERIFY_TOKEN := environ_get_default env "VERIFY_TOKEN" "undefined_token";
     ACCESS_TOKEN := environ_get env "ACCESS_TOKEN";
     PHONE_NUMBER_ID := environ_get env "PHONE_NUMBER_ID";
     API_VERSION := environ_get_default env "API_VERSION" "v22.0";
     BEDROCK_AGENT_ID := environ_get env "BEDROCK_AGENT_ID";
     BEDROCK_ALIAS_ID := environ_get_default env "BEDROCK_ALIAS_ID" "TSTALIASID";
     BUCKET_NAME := environ_get_default env "BUCKET_NAME" "your-bucket-name" |}.

(** The arguments of the one backend call, for any session state. *)
Definition call_args_with (cfg : config) (query session session_state : pyval)
  : invoke_args :=
  {| agentId := BEDROCK_AGENT_ID cfg;
     agentAliasId := BEDROCK_ALIAS_ID cfg;
     sessionId := session;
     inputText := query;
     sessionState := if truthy session_state then Some session_state
                     else None |}.

(** The audit writes of a trace, in order. *)
Definition puts (t : list effect) : list (pystr * stored) :=
  flat_map (fun x => match x with PutObject p d => [(p, d)] | _ => [] end) t.

(** All log records of a trace with their levels, in order. *)
Definition log_of (t : list effect) : list (log_level * log_record) :=
  flat_map (fun x => match x with Log l r => [(l, r)] | _ => [] end) t.

(** The world with another audit store. *)
Definition with_store (w : world) (p : pystr -> stored -> option exn) : world :=
  {| json_loads := json_loads w;
     put_object := p;
     bedrock_invoke_agent := bedrock_invoke_agent w;
     http_request := http_request w;
     decode_error_text := decode_error_text w |}.

(** The trace events and the events of unknown shape of a stream. *)
Definition trace_values (events : list agent_event) : list pyval :=
  flat_map (fun ev => if is_chunk ev then []
                      else match trace ev with Some t => [t] | None => [] end)
           events.

Definition unexpected_events (events : list agent_event) : list agent_event :=
  filter (fun ev => negb (is_chunk ev)
                    && match trace ev with Some _ => false | None => true end)
         events.

(* ------------------------------------------------------------------ *)
(** ** [lambda_function_01_subscribe.py] *)

Module Subscribe.

(** What the handler prints. *)
Inductive printed : Type :=
| EventReceived (event : gateway_event)
| ContextReceived
| HttpMethod (http_method : pystr)
| TokenVerified
| TokenVerificationFailed
| UnsupportedMethod (http_method : pystr).

(** The handler: its prints in order, and its response.  On an event
    of the gateway no statement of its [try] raises, so the [except]
    branch has no part. *)
Definition lambda_handler (cfg : config) (event : gateway_event)
  : list printed * response :=
  let http_method :=
    match httpMethod event with Some m => m | None => str "" end in
  let start :=
    [EventReceived event; ContextReceived; HttpMethod http_method] in
  if pystr_eqb http_method (str "GET") then
    let params :=
      match queryStringParameters event with Some p => p | None => [] end in
    let mode := params_get params "hub.mode" in
    let token := params_get params "hub.verify_token" in
    let challenge := params_get params "hub.challenge" in
    if eq_str mode (str "subscribe") && eq_str token (VERIFY_TOKEN cfg) then
      (start ++ [TokenVerified], {| statusCode := 200; body := challenge |})
    else
      (start ++ [TokenVerificationFailed],
       json_response 403 "error" (str "Invalid verification token"))
  else if pystr_eqb http_method (str "POST") then
    (start, json_response 200 "message" (str "Ok"))
  else
    (start ++ [UnsupportedMethod http_method],
     json_response 405 "error"
       (str "Method " ++ http_method ++ str " not allowed")).

End Subscribe.

(* ------------------------------------------------------------------ *)
(** ** [lambda_function_02_response.py] *)

Module Response.

(** The [Body] of an audit write: [json.dumps(event)] for the event,
    the request body as it came for the body. *)
Inductive s3_body : Type :=
| DumpsOf (event : gateway_event)
| Raw (request_body : pyval).

Inductive printed : Type :=
| SentMessage (to_number : pyval) (status : Z) (data : pystr)
| FailedToSend (e : exn)
| FailedToLog (e : exn)
| IncomingFrom (from_number : pyval)
| Error (e : exn).

(** What leaves the process, in order. *)
Inductive output : Type :=
| S3Put (folder : pystr) (content : s3_body)
| Post (url : pystr) (payload : pyval) (headers : list (pystr * pystr))
| Print (p : printed).

Section Functions.

Variable cfg : config.
Variable w : world.

Definition send_whatsapp_message (to_number : pyval) (message_body : pystr)
  : list output :=
  let headers := auth_headers cfg in
  let payload := message_payload to_number message_body in
  Post (WHATSAPP_API_URL cfg) payload headers
  :: match http_request w (WHATSAPP_API_URL cfg) payload headers with
     | inl e => [Print (FailedToSend e)]
     | inr resp =>
       match bytes_decode w (snd resp) with
       | inl e => [Print (FailedToSend e)]
       | inr data => [Print (SentMessage to_number (fst resp) data)]
       end
     end.

(** The two audit writes, under their one [try]. *)
Definition store_request (event : gateway_event) (request_body : pyval)
  : list output :=
  S3Put (str "event") (DumpsOf event)
  :: match put_object w (str "event") (StoredEvent event) with
     | Some e => [Print (FailedToLog e)]
     | None =>
       S3Put (str "body") (Raw request_body)
       :: match put_object w (str "body") (StoredValue request_body) with
          | Some e => [Print (FailedToLog e)]
          | None => []
          end
     end.

(** The body of the [try] of the POST branch. *)
Definition handle_post (raw_body : pyval) : list output * (exn + response) :=
  match json_loads w raw_body with
  | inl e => ([], inl e)
  | inr parsed_body =>
    match walk_messages parsed_body with
    | inl e => ([], inl e)
    | inr messages =>
      if truthy messages then
        match py_index0 messages with
        | inl e => ([], inl e)
        | inr message =>
          match py_get message "from" PNone with
          | inl e => ([], inl e)
          | inr from_number =>
            (Print (IncomingFrom from_number)
             :: send_whatsapp_message from_number
                  (str "I received your message"),
             inr (json_response 200 "message" (str "Message processed")))
          end
        end
      else ([], inr (json_response 200 "message" (str "Message processed")))
    end
  end.

Definition lambda_handler (event : gateway_event) : list output * response :=
  let raw_body :=
    match event_body event with Some b => b | None => PStr (str "{}") end in
  let http_method :=
    match httpMethod event with Some m => m | None => str "" end in
  let audit := store_request event raw_body in
  if pystr_eqb http_method (str "GET") then
    let params :=
      match queryStringParameters event with Some p => p | None => [] end in
    let mode := params_get params "hub.mode" in
    let token := params_get params "hub.verify_token" in
    let challenge := params_get params "hub.challenge" in
    if eq_str mode (str "subscribe") && eq_str token (VERIFY_TOKEN cfg) then
      (audit, {| statusCode := 200; body := challenge |})
    else
      (audit, json_response 403 "error" (str "Invalid verification token"))
  else if pystr_eqb http_method (str "POST") then
    match handle_post raw_body with
    | (t, inr r) => (audit ++ t, r)
    | (t, inl e) =>
      (audit ++ t ++ [Print (Error e)],
       json_response 500 "error" (exn_descr e))
    end
  else
    (audit, json_response 405 "error"
              (str "Method " ++ http_method ++ str " not allowed")).

End Functions.

(** The messages posted to the transport, and the audit writes, of an
    output list. *)
Definition posts (t : list output) : list pyval :=
  flat_map (fun x => match x with Post _ p _ => [p] | _ => [] end) t.

Definition stores (t : list output) : list (pystr * s3_body) :=
  flat_map (fun x => match x with S3Put f c => [(f, c)] | _ => [] end) t.

End Response.

(* ------------------------------------------------------------------ *)
(** ** More stand-ins *)

(** An audit store that is down, and one that refuses event records
    only. *)
Definition store_down : pystr -> stored -> option exn :=
  fun _ _ => Some (mkExn ClientError (str "Access Denied")).

Definition store_refuses_events : pystr -> stored -> option exn :=
  fun _ data => match data with
                | StoredEvent _ => Some (mkExn ClientError (str "Access Denied"))
                | StoredValue _ => None
                end.

(** A stream whose second chunk is cut inside a two-byte character. *)
Definition cut_events : list agent_event :=
  [ chunk_event "caf";
    {| chunk := Some {| bytes := Some [Byte.xc3] |}; trace := None |};
    {| chunk := Some {| bytes := Some [Byte.xa9] |}; trace := None |} ].

(** A delivery whose [messages] member is a string instead of an
    array, and a world that parses it. *)
Definition odd_event : gateway_event :=
  post_event (json_delivery (qt "messages" ++ str ":" ++ qt "hi")).

Definition odd_world : world :=
  sample_world
    [ (json_delivery (qt "messages" ++ str ":" ++ qt "hi"),
       delivery [ (str "messages", PStr (str "hi")) ]) ]
    (agent_says []) transport_ok.

(** A session state to pass through. *)
Definition some_state : pyval :=
  PDict [ (str "sessionAttributes", PDict [ (str "lang", PStr (str "pt")) ]) ].

(* ------------------------------------------------------------------ *)
(** * Proofs *)

(** ** The two library functions on known values *)

Example dumps_message_ok :
  json_dumps [ (str "message", str "Ok") ]
  = str "{" ++ qt "message" ++ str ": " ++ qt "Ok" ++ str "}".
Proof. reflexivity. Qed.

Example dumps_escapes :
  py_encode_basestring_ascii [quote; 233; 10; 128512]
  = [quote] ++ [backslash; quote] ++ str "\u00e9" ++ str "\n"
    ++ str "\ud83d" ++ str "\ude00" ++ [quote].
Proof. vm_compute. reflexivity. Qed.

Example decode_two_bytes : utf8_decode [Byte.xc3; Byte.xa9] = Some [233].
Proof. reflexivity. Qed.

Example decode_three_bytes :
  utf8_decode [Byte.xe2; Byte.x82; Byte.xac] = Some [8364].
Proof. reflexivity. Qed.

Example decode_four_bytes :
  utf8_decode [Byte.xf0; Byte.x9f; Byte.x98; Byte.x80] = Some [128512].
Proof. reflexivity. Qed.

Example decode_rejects_overlong : utf8_decode [Byte.xc0; Byte.x80] = None.
Proof. reflexivity. Qed.

Example decode_rejects_surrogate :
  utf8_decode [Byte.xed; Byte.xa0; Byte.x80] = None.
Proof. reflexivity. Qed.

Example decode_rejects_truncated : utf8_decode [Byte.xe2; Byte.x82] = None.
Proof. reflexivity. Qed.

Lemma utf8_decode_ascii (s : string) :
  forallb (fun a => N_of_ascii a <? 128) (list_ascii_of_string s) = true ->
  utf8_decode (bytes_of s) = Some (str s).
Proof.
  unfold utf8_decode, bytes_of, str.
  induction (list_ascii_of_string s) as [| a l IH]; [reflexivity |].
  cbn [forallb map]. intros H. apply andb_prop in H as [Ha Hl].
  cbn [utf8_decode_N].
  assert (E : Byte.to_N (byte_of_ascii a) = N_of_ascii a).
  { clear. destruct a as [[] [] [] [] [] [] [] []]; reflexivity. }
  rewrite E, Ha, (IH Hl). reflexivity.
Qed.

(** ** Laws of the monad and of the trace readers *)

Lemma pystr_eqb_eq (a b : pystr) : pystr_eqb a b = true <-> a = b.
Proof.
  revert b. induction a as [| x a IH]; intros [| y b]; simpl;
    try (split; [discriminate | congruence]); [tauto |].
  rewrite andb_true_iff, N.eqb_eq, IH. split.
  - now intros [-> ->].
  - now intros [= -> ->].
Qed.

Lemma pystr_eqb_refl (a : pystr) : pystr_eqb a a = true.
Proof. now apply pystr_eqb_eq. Qed.

Lemma result_bind {A B : Type} (m : M A) (f : A -> M B) :
  result_of (bind m f)
  = match result_of m with
    | inl e => inl e
    | inr a => result_of (f a)
    end.
Proof. destruct m as [t [e | a]]; reflexivity. Qed.

Lemma trace_bind {A B : Type} (m : M A) (f : A -> M B) :
  trace_of (bind m f)
  = trace_of m ++ match result_of m with
                  | inl _ => []
                  | inr a => trace_of (f a)
                  end.
Proof.
  destruct m as [t [e | a]]; simpl; [now rewrite app_nil_r | reflexivity].
Qed.

Lemma result_try {A : Type} (m : M A) (c : exn -> bool) (h : exn -> M A) :
  result_of (try_except m c h)
  = match result_of m with
    | inl e => if c e then result_of (h e) else inl e
    | inr a => inr a
    end.
Proof. destruct m as [t [e | a]]; simpl; [destruct (c e) |]; reflexivity. Qed.

Lemma trace_try {A : Type} (m : M A) (c : exn -> bool) (h : exn -> M A) :
  trace_of (try_except m c h)
  = trace_of m ++ match result_of m with
                  | inl e => if c e then trace_of (h e) else []
                  | inr _ => []
                  end.
Proof.
  destruct m as [t [e | a]]; simpl;
    [destruct (c e); simpl |]; now rewrite ?app_nil_r.
Qed.

Lemma bind_lift_inr {A B : Type} (a : A) (f : A -> M B) :
  bind (lift (inr a)) f = f a.
Proof. unfold bind, lift. simpl. now destruct (f a). Qed.

Lemma bind_lift_inl {A B : Type} (e : exn) (f : A -> M B) :
  bind (lift (inl e)) f = raise e.
Proof. reflexivity. Qed.

Lemma agent_calls_app (t u : list effect) :
  agent_calls (t ++ u) = agent_calls t ++ agent_calls u.
Proof. apply flat_map_app. Qed.

Lemma sends_app (t u : list effect) : sends (t ++ u) = sends t ++ sends u.
Proof. apply flat_map_app. Qed.

Lemma logged_app (lvl : log_level) (t u : list effect) :
  logged lvl (t ++ u) = logged lvl t ++ logged lvl u.
Proof. apply flat_map_app. Qed.

(* ------------------------------------------------------------------ *)
(** ** What each function does to the trace and to the result *)

Section Facts.

Variable cfg : config.
Variable w : world.

Lemma store_result (prefix : pystr) (data : stored) :
  result_of (store_event_to_s3 w prefix data) = inr tt.
Proof.
  unfold store_event_to_s3. rewrite result_bind. simpl.
  destruct (put_object w prefix data); reflexivity.
Qed.

Lemma store_quiet (prefix : pystr) (data : stored) :
  agent_calls (trace_of (store_event_to_s3 w prefix data)) = []
  /\ sends (trace_of (store_event_to_s3 w prefix data)) = [].
Proof.
  unfold store_event_to_s3. rewrite trace_bind. simpl.
  destruct (put_object w prefix data); split; reflexivity.
Qed.

Lemma handler_result (event : gateway_event) :
  result_of (lambda_handler cfg w event) = result_of (after_audit cfg w event).
Proof.
  unfold lambda_handler. rewrite result_bind, store_result.
  rewrite result_bind, store_result. reflexivity.
Qed.

Lemma handler_agent_calls (event : gateway_event) :
  agent_calls (trace_of (lambda_handler cfg w event))
  = agent_calls (trace_of (after_audit cfg w event)).
Proof.
  unfold lambda_handler.
  rewrite trace_bind, store_result, agent_calls_app.
  rewrite trace_bind, store_result, agent_calls_app.
  rewrite (proj1 (store_quiet _ _)), (proj1 (store_quiet _ _)). reflexivity.
Qed.

Lemma handler_sends (event : gateway_event) :
  sends (trace_of (lambda_handler cfg w event))
  = sends (trace_of (after_audit cfg w event)).
Proof.
  unfold lambda_handler.
  rewrite trace_bind, store_result, sends_app.
  rewrite trace_bind, store_result, sends_app.
  rewrite (proj2 (store_quiet _ _)), (proj2 (store_quiet _ _)). reflexivity.
Qed.

(** *** The outbound notifier *)

Lemma send_result (to_number : pyval) (message_body : pystr) :
  result_of (send_whatsapp_message cfg w to_number message_body) = inr tt.
Proof.
  unfold send_whatsapp_message, try_except, bind. simpl.
  destruct (http_request w _ _ _) as [e | resp]; simpl; [reflexivity |].
  destruct (bytes_decode w (snd resp)); reflexivity.
Qed.

Lemma send_trace (to_number : pyval) (message_body : pystr) :
  exists r,
    trace_of (send_whatsapp_message cfg w to_number message_body)
    = [ HttpPost (WHATSAPP_API_URL cfg)
                 (message_payload to_number message_body) (auth_headers cfg);
        Log (fst r) (snd r) ].
Proof.
  unfold send_whatsapp_message, try_except, bind. simpl.
  destruct (http_request w _ _ _) as [e | resp]; simpl.
  - now exists (ERROR, LogSendFailed e).
  - destruct (bytes_decode w (snd resp)) as [e | data]; simpl.
    + now exists (ERROR, LogSendFailed e).
    + now exists (INFO, LogSent to_number (fst resp) data).
Qed.

Lemma send_calls (to_number : pyval) (message_body : pystr) :
  agent_calls (trace_of (send_whatsapp_message cfg w to_number message_body)) = []
  /\ sends (trace_of (send_whatsapp_message cfg w to_number message_body))
     = [message_payload to_number message_body].
Proof.
  destruct (send_trace to_number message_body) as [r ->]. now split.
Qed.

(** A failing transport leaves one ERROR record and nothing else. *)
Lemma send_failure_logged (to_number : pyval) (message_body : pystr) (e : exn) :
  http_request w (WHATSAPP_API_URL cfg)
               (message_payload to_number message_body) (auth_headers cfg)
  = inl e ->
  logged ERROR (trace_of (send_whatsapp_message cfg w to_number message_body))
  = [LogSendFailed e].
Proof.
  intros H. unfold send_whatsapp_message, try_except, bind. simpl.
  rewrite H. reflexivity.
Qed.

(** *** The aggregation loop *)

Lemma aggregate_calls (events : list agent_event) :
  forall acc,
    agent_calls (trace_of (aggregate w acc events)) = []
    /\ sends (trace_of (aggregate w acc events)) = [].
Proof.
  induction events as [| ev rest IH]; intros acc; cbn [aggregate];
    [now split |].
  destruct (chunk ev) as [[[b |]] |].
  - rewrite trace_bind. unfold lift at 1 2. cbn [trace_of result_of fst snd].
    destruct (bytes_decode w b); cbn [app]; [now split | apply IH].
  - destruct (trace ev); rewrite trace_bind; cbn; apply IH.
  - destruct (trace ev); rewrite trace_bind; cbn; apply IH.
Qed.

Lemma aggregate_ok (events : list agent_event) :
  forall acc texts,
    Forall2 (fun b t => utf8_decode b = Some t) (chunk_bytes events) texts ->
    result_of (aggregate w acc events) = inr (acc ++ List.concat texts).
Proof.
  induction events as [| ev rest IH]; intros acc texts H;
    cbn [aggregate chunk_bytes flat_map] in *.
  - inversion H; subst. cbn. now rewrite app_nil_r.
  - destruct (chunk ev) as [[[b |]] |]; cbn [app] in H.
    + inversion H as [| b' t bs ts Hb Hrest]; subst.
      rewrite result_bind. unfold bytes_decode. rewrite Hb.
      cbn [lift result_of snd List.concat].
      rewrite (IH _ _ Hrest). now rewrite app_assoc.
    + destruct (trace ev); rewrite result_bind; cbn [emit result_of snd];
        now apply IH.
    + destruct (trace ev); rewrite result_bind; cbn [emit result_of snd];
        now apply IH.
Qed.

Lemma aggregate_raises (events : list agent_event) :
  forall acc e,
    result_of (aggregate w acc events) = inl e ->
    exn_class_of e = UnicodeDecodeError.
Proof.
  induction events as [| ev rest IH]; intros acc e; cbn [aggregate];
    [discriminate |].
  destruct (chunk ev) as [[[b |]] |].
  - rewrite result_bind. unfold bytes_decode.
    destruct (utf8_decode b); cbn [lift result_of snd];
      [apply IH | intros [= <-]; reflexivity].
  - destruct (trace ev); rewrite result_bind; cbn [emit result_of snd];
      apply IH.
  - destruct (trace ev); rewrite result_bind; cbn [emit result_of snd];
      apply IH.
Qed.

(** *** The agent invoker *)

Lemma invoke_agent_eq (query session : pyval) :
  invoke_agent cfg w query session PNone
  = try_except
      (emit (InvokeAgent (call_args cfg query session)) ;;;
       completion <- lift (bedrock_invoke_agent w (call_args cfg query session)) ;;
       if negb (completion_truthy completion) then ret no_response
       else aggregate w [] (completion_events completion))
      is_ClientError
      (fun error =>
         emit (Log ERROR (LogInvokeError error)) ;;;
         ret (str "Error invoking agent: " ++ exn_descr error)).
Proof. reflexivity. Qed.

Lemma invoke_calls (query session : pyval) :
  agent_calls (trace_of (invoke_agent cfg w query session PNone))
  = [call_args cfg query session]
  /\ sends (trace_of (invoke_agent cfg w query session PNone)) = [].
Proof.
  rewrite invoke_agent_eq, trace_try, trace_bind, result_bind.
  cbn [emit trace_of result_of fst snd].
  rewrite trace_bind, result_bind.
  destruct (bedrock_invoke_agent w (call_args cfg query session)) as [e | c];
    cbn [lift trace_of result_of fst snd].
  - destruct (is_ClientError e); now split.
  - destruct (completion_truthy c); cbn [negb].
    + destruct (aggregate_calls (completion_events c) []) as [Ha Hs].
      rewrite !agent_calls_app, !sends_app, Ha, Hs.
      destruct (result_of (aggregate w [] (completion_events c))) as [e |];
        [| now split].
      destruct (is_ClientError e); now split.
    + now split.
Qed.

Lemma invoke_result (query session : pyval) :
  result_of (invoke_agent cfg w query session PNone)
  = match bedrock_invoke_agent w (call_args cfg query session) with
    | inl e =>
      if is_ClientError e
      then inr (str "Error invoking agent: " ++ exn_descr e)
      else inl e
    | inr c =>
      if completion_truthy c
      then result_of (aggregate w [] (completion_events c))
      else inr no_response
    end.
Proof.
  rewrite invoke_agent_eq, result_try, result_bind.
  cbn [emit result_of snd]. rewrite result_bind.
  destruct (bedrock_invoke_agent w (call_args cfg query session)) as [e | c];
    cbn [lift result_of snd].
  - destruct (is_ClientError e); reflexivity.
  - destruct (completion_truthy c); cbn [negb]; [| reflexivity].
    destruct (result_of (aggregate w [] (completion_events c))) as [e |] eqn:E;
      [| reflexivity].
    apply aggregate_raises in E. unfold is_ClientError. now rewrite E.
Qed.

(** *** The POST branch *)

Lemma handle_post_unparseable (raw : pyval) (e : exn) :
  json_loads w raw = inl e -> handle_post cfg w raw = raise e.
Proof. intros H. unfold handle_post. now rewrite H, bind_lift_inl. Qed.

Lemma handle_post_walk_raises (raw payload : pyval) (e : exn) :
  json_loads w raw = inr payload ->
  walk_messages payload = inl e ->
  handle_post cfg w raw = raise e.
Proof.
  intros H1 H2. unfold handle_post.
  now rewrite H1, bind_lift_inr, H2, bind_lift_inl.
Qed.

Lemma handle_post_no_message (raw payload messages : pyval) :
  json_loads w raw = inr payload ->
  walk_messages payload = inr messages ->
  truthy messages = false ->
  handle_post cfg w raw
  = ret (json_response 200 "message" (str "No message object found in webhook")).
Proof.
  intros H1 H2 H3. unfold handle_post.
  now rewrite H1, bind_lift_inr, H2, bind_lift_inr, H3.
Qed.

Lemma handle_post_message (raw payload query : pyval)
      (m : list (pystr * pyval)) (later : list pyval) :
  json_loads w raw = inr payload ->
  walk_messages payload = inr (PList (PDict m :: later)) ->
  spec_text m = Some query ->
  handle_post cfg w raw = process cfg w query (spec_sender m).
Proof.
  intros H1 H2 H3. unfold handle_post.
  rewrite H1, bind_lift_inr, H2, bind_lift_inr.
  cbn [truthy negb py_index0]. rewrite bind_lift_inr.
  assert (Hs : py_get (PDict m) "from" PNone = inr (spec_sender m)).
  { unfold spec_sender. cbn [py_get].
    now destruct (dict_lookup (str "from") m). }
  rewrite Hs, bind_lift_inr.
  assert (Ht : match py_get (PDict m) "text" (PDict []) with
               | inl e => inl e
               | inr text => py_get text "body" (PStr (str ""))
               end = inr query).
  { unfold spec_text in H3. cbn [py_get].
    destruct (dict_lookup (str "text") m) as [[| | | | | | t] |];
      try discriminate.
    - cbn [py_get]. destruct (dict_lookup (str "body") t); congruence.
    - injection H3 as <-. reflexivity. }
  destruct (py_get (PDict m) "text" (PDict [])) as [e | text];
    [discriminate |].
  now rewrite bind_lift_inr, Ht, bind_lift_inr.
Qed.

Lemma process_result (query from_number : pyval) :
  result_of (process cfg w query from_number)
  = match result_of (invoke_agent cfg w query from_number PNone) with
    | inl e => inl e
    | inr _ => inr (json_response 200 "message" (str "Message processed"))
    end.
Proof.
  unfold process. rewrite result_bind. cbn [emit result_of snd].
  rewrite result_bind.
  destruct (result_of (invoke_agent cfg w query from_number PNone)) as [e | a];
    [reflexivity |].
  rewrite result_bind, send_result. reflexivity.
Qed.

Lemma process_calls (query from_number : pyval) :
  agent_calls (trace_of (process cfg w query from_number))
  = [call_args cfg query from_number]
  /\ sends (trace_of (process cfg w query from_number))
     = match result_of (invoke_agent cfg w query from_number PNone) with
       | inl _ => []
       | inr a => [message_payload from_number a]
       end.
Proof.
  unfold process. rewrite trace_bind. cbn [emit trace_of result_of fst snd].
  rewrite trace_bind.
  destruct (invoke_calls query from_number) as [Ha Hs].
  rewrite !agent_calls_app, !sends_app, Ha, Hs.
  destruct (result_of (invoke_agent cfg w query from_number PNone)) as [e | a];
    [now split |].
  rewrite trace_bind, send_result, !agent_calls_app, !sends_app.
  destruct (send_calls from_number a) as [-> ->]. now split.
Qed.

(** *** The dispatcher on a POST *)

Lemma post_after_audit (event : gateway_event) :
  httpMethod event = Some (str "POST") ->
  after_audit cfg w event
  = try_except (handle_post cfg w (raw_body_of event)) except_Exception
      (fun e =>
         emit (Log ERROR (LogPostError e)) ;;;
         ret (json_response 500 "error" (exn_descr e))).
Proof. intros H. unfold after_audit. rewrite H. reflexivity. Qed.

Lemma post_result (event : gateway_event) :
  httpMethod event = Some (str "POST") ->
  result_of (lambda_handler cfg w event)
  = match result_of (handle_post cfg w (raw_body_of event)) with
    | inl e => inr (json_response 500 "error" (exn_descr e))
    | inr r => inr r
    end.
Proof.
  intros H. rewrite handler_result, (post_after_audit _ H), result_try.
  destruct (result_of (handle_post cfg w (raw_body_of event))); reflexivity.
Qed.

Lemma post_calls (event : gateway_event) :
  httpMethod event = Some (str "POST") ->
  agent_calls (trace_of (lambda_handler cfg w event))
  = agent_calls (trace_of (handle_post cfg w (raw_body_of event)))
  /\ sends (trace_of (lambda_handler cfg w event))
     = sends (trace_of (handle_post cfg w (raw_body_of event))).
Proof.
  intros H. rewrite handler_agent_calls, handler_sends.
  rewrite (post_after_audit _ H), trace_try, agent_calls_app, sends_app.
  destruct (result_of (handle_post cfg w (raw_body_of event))) as [e | r];
    unfold except_Exception.
  - change (agent_calls (trace_of (emit (Log ERROR (LogPostError e)) ;;;
                                   ret (json_response 500 "error" (exn_descr e)))))
      with (@nil invoke_args).
    change (sends (trace_of (emit (Log ERROR (LogPostError e)) ;;;
                             ret (json_response 500 "error" (exn_descr e)))))
      with (@nil pyval).
    now rewrite !app_nil_r.
  - change (agent_calls []) with (@nil invoke_args).
    change (sends []) with (@nil pyval).
    now rewrite !app_nil_r.
Qed.

End Facts.

(* ------------------------------------------------------------------ *)
(** ** The verification handshake *)

(** C3.  On a GET the status is 200 exactly when [hub.mode] is the
    literal [subscribe] and [hub.verify_token] is the configured
    secret; the body is then the [hub.challenge] value itself, not a
    JSON text; in every other case the response is the one fixed 403
    with the JSON error body, the same for a wrong mode and a wrong
    token. *)
Theorem verification_handshake (cfg : config) (w : world)
        (event : gateway_event) (params : list (pystr * pystr)) :
  httpMethod event = Some (str "GET") ->
  params = match queryStringParameters event with
           | Some p => p
           | None => []
           end ->
  exists resp,
    result_of (lambda_handler cfg w event) = inr resp
    /\ (statusCode resp = 200%Z
        <-> dict_lookup (str "hub.mode") params = Some (str "subscribe")
            /\ dict_lookup (str "hub.verify_token") params
               = Some (VERIFY_TOKEN cfg))
    /\ (statusCode resp = 200%Z
        -> body resp = match dict_lookup (str "hub.challenge") params with
                       | Some c => PStr c
                       | None => PNone
                       end)
    /\ (statusCode resp <> 200%Z
        -> resp = json_response 403 "error" (str "Invalid verification token")).
Proof.
  intros Hm ->. rewrite handler_result. unfold after_audit. rewrite Hm.
  change (pystr_eqb (str "GET") (str "GET")) with true. cbv iota.
  set (params := match queryStringParameters event with
                 | Some p => p
                 | None => []
                 end).
  unfold params_get.
  destruct (dict_lookup (str "hub.mode") params) as [mode |];
    destruct (dict_lookup (str "hub.verify_token") params) as [token |];
    cbn [eq_str andb];
    try (destruct (pystr_eqb mode (str "subscribe")) eqn:E1);
    try (destruct (pystr_eqb token (VERIFY_TOKEN cfg)) eqn:E2);
    cbn [andb];
    (eexists; split; [reflexivity |];
     cbn [statusCode body json_response];
     split; [split |]; [| | split]);
    try discriminate; try reflexivity; try congruence;
    try (intros [H1 H2]; inversion H1; inversion H2; subst;
         rewrite pystr_eqb_refl in *; discriminate).
  intros _. apply pystr_eqb_eq in E1, E2. now subst.
Qed.

(** The scenario of the handshake: the challenge XYZ123 comes back
    with status 200. *)
Lemma verification_handshake_witness :
  exists resp,
    result_of (lambda_handler sample_cfg quiet_world (get_event handshake_params))
    = inr resp
    /\ statusCode resp = 200%Z
    /\ body resp = PStr (str "XYZ123").
Proof.
  destruct (verification_handshake sample_cfg quiet_world
              (get_event handshake_params) handshake_params
              eq_refl eq_refl) as [resp [Hr [Hs [Hb _]]]].
  exists resp. split; [exact Hr |].
  assert (H200 : statusCode resp = 200%Z).
  { apply Hs. split; reflexivity. }
  split; [exact H200 | exact (Hb H200)].
Defined.

(** C10.  A GET whose mode and token match but which carries no
    [hub.challenge] is still answered with status 200, and the body is
    the absent value [None]. *)
Theorem absent_challenge (cfg : config) (w : world) (event : gateway_event)
        (params : list (pystr * pystr)) :
  httpMethod event = Some (str "GET") ->
  queryStringParameters event = Some params ->
  dict_lookup (str "hub.mode") params = Some (str "subscribe") ->
  dict_lookup (str "hub.verify_token") params = Some (VERIFY_TOKEN cfg) ->
  dict_lookup (str "hub.challenge") params = None ->
  result_of (lambda_handler cfg w event)
  = inr {| statusCode := 200; body := PNone |}.
Proof.
  intros Hm Hq Hmode Htoken Hch.
  rewrite handler_result. unfold after_audit, params_get.
  rewrite Hm, Hq, Hmode, Htoken, Hch.
  change (pystr_eqb (str "GET") (str "GET")) with true.
  cbn [eq_str]. now rewrite !pystr_eqb_refl.
Qed.

Lemma absent_challenge_witness :
  result_of (lambda_handler sample_cfg quiet_world
               (get_event [ (str "hub.mode", str "subscribe");
                            (str "hub.verify_token", str "SECRET") ]))
  = inr {| statusCode := 200; body := PNone |}.
Proof.
  apply (absent_challenge sample_cfg quiet_world _
           [ (str "hub.mode", str "subscribe");
             (str "hub.verify_token", str "SECRET") ]);
    reflexivity.
Defined.

(* ------------------------------------------------------------------ *)
(** ** Methods other than GET and POST *)

Lemma json_dumps_embeds (key : string) (before text after : pystr) :
  exists pre post,
    json_dumps [ (str key, before ++ text ++ after) ]
    = pre ++ flat_map escape_char text ++ post.
Proof.
  unfold json_dumps, py_encode_basestring_ascii. cbn [map join fst snd].
  rewrite !flat_map_app.
  exists (str "{" ++ ([quote] ++ flat_map escape_char (str key) ++ [quote])
          ++ str ": " ++ [quote] ++ flat_map escape_char before).
  exists (flat_map escape_char after ++ [quote] ++ str "}").
  now rewrite <- !app_assoc.
Qed.

Lemma escape_plain (s : pystr) :
  forallb plain s = true -> flat_map escape_char s = s.
Proof.
  induction s as [| c s IH]; [reflexivity |].
  cbn [forallb flat_map]. intros H.
  apply andb_prop in H as [Hc Hs]. rewrite (IH Hs).
  unfold plain in Hc. unfold escape_char.
  apply andb_prop in Hc as [Hc Hb]. apply andb_prop in Hc as [Hc Hq].
  apply negb_true_iff in Hq, Hb. rewrite Hq, Hb, Hc.
  apply andb_prop in Hc as [Hlo _]. apply N.leb_le in Hlo.
  replace (c =? 10) with false by (symmetry; apply N.eqb_neq; lia).
  replace (c =? 13) with false by (symmetry; apply N.eqb_neq; lia).
  replace (c =? 9) with false by (symmetry; apply N.eqb_neq; lia).
  replace (c =? 12) with false by (symmetry; apply N.eqb_neq; lia).
  replace (c =? 8) with false by (symmetry; apply N.eqb_neq; lia).
  reflexivity.
Qed.

(** C9.  A request whose method is neither GET nor POST, the empty
    string of a missing method included, is answered with status 405
    and the JSON text of an error message that contains the method
    name; neither the agent nor the transport is called. *)
Theorem method_not_allowed (cfg : config) (w : world) (event : gateway_event) :
  method_of event <> str "GET" ->
  method_of event <> str "POST" ->
  result_of (lambda_handler cfg w event)
  = inr (json_response 405 "error"
           (str "Method " ++ method_of event ++ str " not allowed"))
  /\ (exists pre post,
        body (json_response 405 "error"
                (str "Method " ++ method_of event ++ str " not allowed"))
        = PStr (pre ++ flat_map escape_char (method_of event) ++ post))
  /\ agent_calls (trace_of (lambda_handler cfg w event)) = []
  /\ sends (trace_of (lambda_handler cfg w event)) = [].
Proof.
  intros Hg Hp.
  assert (E : after_audit cfg w event
              = ret (json_response 405 "error"
                       (str "Method " ++ method_of event ++ str " not allowed"))).
  { unfold after_audit. fold (method_of event).
    destruct (pystr_eqb (method_of event) (str "GET")) eqn:E1;
      [apply pystr_eqb_eq in E1; contradiction |].
    destruct (pystr_eqb (method_of event) (str "POST")) eqn:E2;
      [apply pystr_eqb_eq in E2; contradiction |].
    reflexivity. }
  rewrite handler_result, handler_agent_calls, handler_sends, E.
  split; [reflexivity |]. split; [| now split].
  destruct (json_dumps_embeds "error" (str "Method ") (method_of event)
              (str " not allowed")) as [pre [post H]].
  exists pre, post. unfold json_response. cbn [body]. f_equal. exact H.
Qed.

Lemma method_not_allowed_witness :
  result_of (lambda_handler sample_cfg quiet_world delete_event)
  = inr (json_response 405 "error" (str "Method DELETE not allowed"))
  /\ result_of (lambda_handler sample_cfg quiet_world no_method_event)
     = inr (json_response 405 "error" (str "Method  not allowed")).
Proof.
  split.
  - apply (method_not_allowed sample_cfg quiet_world delete_event);
      discriminate.
  - apply (method_not_allowed sample_cfg quiet_world no_method_event);
      discriminate.
Defined.

(* ------------------------------------------------------------------ *)
(** ** The POST branch: errors *)

(** The handler returns a response on every event: nothing it raises
    leaves it. *)
Lemma handler_total (cfg : config) (w : world) (event : gateway_event) :
  exists resp, result_of (lambda_handler cfg w event) = inr resp.
Proof.
  rewrite handler_result. unfold after_audit.
  destruct (pystr_eqb _ (str "GET")).
  - destruct (_ && _); eexists; reflexivity.
  - destruct (pystr_eqb _ (str "POST")); [| eexists; reflexivity].
    rewrite result_try.
    destruct (result_of (handle_post cfg w _)); eexists; reflexivity.
Qed.

(** C7.  On a POST whose body the parser rejects, the response is 500
    with the JSON text of the parser's message, and no collaborator is
    called; an exception raised anywhere later in the POST branch gets
    the same 500 with its own message; in no case does the handler
    raise. *)
Theorem post_errors_become_500 (cfg : config) (w : world)
        (event : gateway_event) :
  httpMethod event = Some (str "POST") ->
  (forall e,
      json_loads w (raw_body_of event) = inl e ->
      result_of (lambda_handler cfg w event)
      = inr (json_response 500 "error" (exn_descr e))
      /\ agent_calls (trace_of (lambda_handler cfg w event)) = []
      /\ sends (trace_of (lambda_handler cfg w event)) = [])
  /\ (forall e,
         result_of (handle_post cfg w (raw_body_of event)) = inl e ->
         result_of (lambda_handler cfg w event)
         = inr (json_response 500 "error" (exn_descr e)))
  /\ (exists resp, result_of (lambda_handler cfg w event) = inr resp).
Proof.
  intros Hm. split; [| split].
  - intros e He. destruct (post_calls cfg w event Hm) as [-> ->].
    rewrite (post_result cfg w event Hm).
    rewrite (handle_post_unparseable cfg w _ e He). now split.
  - intros e He. rewrite (post_result cfg w event Hm). now rewrite He.
  - apply handler_total.
Qed.

(** The text [not json] is no JSON document. *)
Lemma post_errors_become_500_witness :
  result_of (lambda_handler sample_cfg quiet_world (post_event (str "not json")))
  = inr (json_response 500 "error"
           (str "Expecting value: line 1 column 1 (char 0)")).
Proof.
  destruct (post_errors_become_500 sample_cfg quiet_world
              (post_event (str "not json")) eq_refl) as [H _].
  assert (E : json_loads quiet_world (raw_body_of (post_event (str "not json")))
              = inl (mkExn JSONDecodeError
                           (str "Expecting value: line 1 column 1 (char 0)")))
    by (vm_compute; reflexivity).
  exact (proj1 (H _ E)).
Defined.

(* ------------------------------------------------------------------ *)
(** ** The POST branch: payloads without a message *)

(** Where the walk ends without an exception on a false value (no
    [value] or no [messages] member, an empty array), the response is
    the informational 200 and nothing is called. *)
Lemma no_message_is_200 (cfg : config) (w : world) (event : gateway_event)
      (payload messages : pyval) :
  httpMethod event = Some (str "POST") ->
  json_loads w (raw_body_of event) = inr payload ->
  walk_messages payload = inr messages ->
  truthy messages = false ->
  result_of (lambda_handler cfg w event)
  = inr (json_response 200 "message" (str "No message object found in webhook"))
  /\ agent_calls (trace_of (lambda_handler cfg w event)) = []
  /\ sends (trace_of (lambda_handler cfg w event)) = [].
Proof.
  intros Hm Hl Hw Ht. destruct (post_calls cfg w event Hm) as [-> ->].
  rewrite (post_result cfg w event Hm).
  rewrite (handle_post_no_message cfg w _ _ _ Hl Hw Ht). now split.
Qed.

(** Where the walk itself raises, the response is a 500. *)
Lemma broken_walk_is_500 (cfg : config) (w : world) (event : gateway_event)
      (payload : pyval) (e : exn) :
  httpMethod event = Some (str "POST") ->
  json_loads w (raw_body_of event) = inr payload ->
  walk_messages payload = inl e ->
  result_of (lambda_handler cfg w event)
  = inr (json_response 500 "error" (exn_descr e))
  /\ agent_calls (trace_of (lambda_handler cfg w event)) = []
  /\ sends (trace_of (lambda_handler cfg w event)) = [].
Proof.
  intros Hm Hl Hw. destruct (post_calls cfg w event Hm) as [-> ->].
  rewrite (post_result cfg w event Hm).
  rewrite (handle_post_walk_raises cfg w _ _ _ Hl Hw). now split.
Qed.

(** A payload with no [entry] member makes the walk index the empty
    default list. *)
Lemma walk_without_entry (d : list (pystr * pyval)) :
  dict_lookup (str "entry") d = None ->
  walk_messages (PDict d)
  = inl (mkExn IndexError (str "list index out of range")).
Proof. intros H. unfold walk_messages, py_get. now rewrite H. Qed.

(** So does an [entry] whose first element has no [changes] member. *)
Lemma walk_without_changes (d e0 : list (pystr * pyval)) (more : list pyval) :
  dict_lookup (str "entry") d = Some (PList (PDict e0 :: more)) ->
  dict_lookup (str "changes") e0 = None ->
  walk_messages (PDict d)
  = inl (mkExn IndexError (str "list index out of range")).
Proof.
  intros H1 H2. unfold walk_messages, py_get. rewrite H1.
  cbn [py_index0]. now rewrite H2.
Qed.

Lemma missing_entry_is_500 (cfg : config) (w : world) (event : gateway_event)
      (d : list (pystr * pyval)) :
  httpMethod event = Some (str "POST") ->
  json_loads w (raw_body_of event) = inr (PDict d) ->
  dict_lookup (str "entry") d = None ->
  result_of (lambda_handler cfg w event)
  = inr (json_response 500 "error" (str "list index out of range"))
  /\ agent_calls (trace_of (lambda_handler cfg w event)) = []
  /\ sends (trace_of (lambda_handler cfg w event)) = [].
Proof.
  intros Hm Hl Hd.
  apply (broken_walk_is_500 cfg w event (PDict d)
           (mkExn IndexError (str "list index out of range")) Hm Hl).
  now apply walk_without_entry.
Qed.

(** C1, on the code.  The body [{}] parses to the empty object, its
    path to [messages] breaks at the first step, and the dispatcher
    answers 500 with the text of an [IndexError], not the
    informational 200; the same for a POST event without a body, for
    which the handler supplies [{}] itself. *)
Theorem empty_object_post_is_500 :
  json_loads quiet_world (raw_body_of (post_event (str "{}"))) = inr (PDict [])
  /\ result_of (lambda_handler sample_cfg quiet_world (post_event (str "{}")))
     = inr (json_response 500 "error" (str "list index out of range"))
  /\ result_of (lambda_handler sample_cfg quiet_world bodiless_post_event)
     = inr (json_response 500 "error" (str "list index out of range")).
Proof.
  split; [vm_compute; reflexivity |]. split.
  - apply (missing_entry_is_500 sample_cfg quiet_world (post_event (str "{}")) []);
      vm_compute; reflexivity.
  - apply (missing_entry_is_500 sample_cfg quiet_world bodiless_post_event []);
      vm_compute; reflexivity.
Qed.

(** The same payload shape with the walk intact down to [value]: a
    status callback gets the informational 200. *)
Example status_callback_is_200 :
  result_of (lambda_handler sample_cfg quiet_world
               (post_event (json_delivery (qt "statuses" ++ str ":[]"))))
  = inr (json_response 200 "message" (str "No message object found in webhook")).
Proof. vm_compute. reflexivity. Qed.

(* ------------------------------------------------------------------ *)
(** ** The agent invoker *)

Lemma skip_event (w : world) (acc : pystr) (ev : agent_event)
      (rest : list agent_event) :
  is_chunk ev = false ->
  result_of (aggregate w acc (ev :: rest)) = result_of (aggregate w acc rest).
Proof.
  unfold is_chunk. intros H. cbn [aggregate].
  destruct (chunk ev) as [[[b |]] |]; [discriminate | |];
    destruct (trace ev); rewrite result_bind; reflexivity.
Qed.

(** C2.  Over any sequence of events whose chunks are valid UTF-8, the
    loop returns the concatenation, in order, of the decoded chunks;
    an event that is no chunk (a trace, or any other shape) leaves the
    result as it would be without it; and [invoke_agent] returns that
    text whenever the backend hands it the sequence in a true
    completion object. *)
Theorem aggregation_in_order (cfg : config) (w : world)
        (events : list agent_event) (texts : list pystr) :
  Forall2 (fun b t => utf8_decode b = Some t) (chunk_bytes events) texts ->
  result_of (aggregate w [] events) = inr (List.concat texts)
  /\ (forall acc ev rest,
         is_chunk ev = false ->
         result_of (aggregate w acc (ev :: rest))
         = result_of (aggregate w acc rest))
  /\ (forall query session c,
         bedrock_invoke_agent w (call_args cfg query session) = inr c ->
         completion_truthy c = true ->
         completion_events c = events ->
         result_of (invoke_agent cfg w query session PNone)
         = inr (List.concat texts)).
Proof.
  intros H. split; [| split].
  - apply (aggregate_ok w events [] texts H).
  - intros acc ev rest. apply skip_event.
  - intros query session c Hc Ht He.
    rewrite invoke_result, Hc, Ht, He.
    apply (aggregate_ok w events [] texts H).
Qed.

Lemma aggregation_in_order_witness :
  result_of (aggregate quiet_world [] hello_events) = inr (str "Hello, world").
Proof.
  apply (aggregation_in_order sample_cfg quiet_world hello_events
           [str "Hel"; str "lo, "; str "world"]).
  repeat constructor.
Defined.

(** A chunk that is not valid UTF-8 on its own ends the loop with a
    [UnicodeDecodeError], which [invoke_agent] does not catch. *)
Example split_character_raises :
  result_of (aggregate quiet_world []
               [ {| chunk := Some {| bytes := Some [Byte.xc3] |}; trace := None |};
                 {| chunk := Some {| bytes := Some [Byte.xa9] |}; trace := None |} ])
  = inl (mkExn UnicodeDecodeError (str "'utf-8' codec can't decode bytes")).
Proof. vm_compute. reflexivity. Qed.

(** C4, as the code has it.  A reply without a completion object (the
    key absent, [None], or an empty plain sequence) gives the fixed
    fallback text; a reply whose completion object is true and holds no
    chunk event gives the empty string; neither raises. *)
Theorem fallback_without_completion (cfg : config) (w : world)
        (query session : pyval) (c : option completion) :
  bedrock_invoke_agent w (call_args cfg query session) = inr c ->
  (completion_truthy c = false ->
   result_of (invoke_agent cfg w query session PNone) = inr no_response)
  /\ (completion_truthy c = true ->
      chunk_bytes (completion_events c) = [] ->
      result_of (invoke_agent cfg w query session PNone) = inr (str "")).
Proof.
  intros Hc. rewrite invoke_result, Hc. split.
  - now intros ->.
  - intros -> Hn.
    apply (aggregate_ok w (completion_events c) [] []). rewrite Hn. constructor.
Qed.

Lemma fallback_without_completion_witness :
  result_of (invoke_agent sample_cfg
               (sample_world scenario_docs silent_agent transport_ok)
               (PStr (str "hi")) (PStr (str "15551234567")) PNone)
  = inr (str "No response from the agent.").
Proof.
  apply (fallback_without_completion sample_cfg
           (sample_world scenario_docs silent_agent transport_ok)
           (PStr (str "hi")) (PStr (str "15551234567")) None eq_refl).
  reflexivity.
Defined.

(** C4 as stated fails: a completion stream that delivers one trace
    event and no chunk makes [invoke_agent] return the empty string,
    which is not the fallback text. *)
Lemma trace_only_reply_is_empty :
  chunk_bytes [trace_event] = []
  /\ result_of (invoke_agent sample_cfg
                  (sample_world scenario_docs (agent_says [trace_event])
                                transport_ok)
                  (PStr (str "hi")) (PStr (str "15551234567")) PNone)
     = inr (str "")
  /\ str "" <> no_response.
Proof.
  split; [reflexivity |]. split; [vm_compute; reflexivity | discriminate].
Qed.

(* ------------------------------------------------------------------ *)
(** ** The POST branch: a delivery that carries a message *)

Section Delivery.

Variable cfg : config.
Variable w : world.
Variable event : gateway_event.
Variable payload : pyval.
Variable m : list (pystr * pyval).
Variable later : list pyval.
Variable query : pyval.

Hypothesis is_post : httpMethod event = Some (str "POST").
Hypothesis parses : json_loads w (raw_body_of event) = inr payload.
Hypothesis reaches : walk_messages payload = inr (PList (PDict m :: later)).
Hypothesis has_text : spec_text m = Some query.

Lemma delivery_result :
  result_of (lambda_handler cfg w event)
  = match result_of (invoke_agent cfg w query (spec_sender m) PNone) with
    | inl e => inr (json_response 500 "error" (exn_descr e))
    | inr _ => inr (json_response 200 "message" (str "Message processed"))
    end.
Proof.
  rewrite (post_result cfg w event is_post).
  rewrite (handle_post_message cfg w _ _ _ _ _ parses reaches has_text).
  rewrite process_result.
  now destruct (result_of (invoke_agent cfg w query (spec_sender m) PNone)).
Qed.

Lemma delivery_calls :
  agent_calls (trace_of (lambda_handler cfg w event))
  = [call_args cfg query (spec_sender m)]
  /\ sends (trace_of (lambda_handler cfg w event))
     = match result_of (invoke_agent cfg w query (spec_sender m) PNone) with
       | inl _ => []
       | inr a => [message_payload (spec_sender m) a]
       end.
Proof.
  destruct (post_calls cfg w event is_post) as [-> ->].
  rewrite (handle_post_message cfg w _ _ _ _ _ parses reaches has_text).
  apply process_calls.
Qed.

End Delivery.

(** C6.  When the payload reaches a non-empty [messages] array whose
    first element is a message object, the handler does with the
    request exactly what it does with that element's sender and text:
    one call to the agent, with the [from] member as session and the
    [text.body] member as input (the empty string when [text] or its
    [body] is missing), and no outbound message to anybody else; the
    later elements play no part. *)
Theorem first_message_only (cfg : config) (w : world) (event : gateway_event)
        (payload : pyval) (m : list (pystr * pyval)) (later : list pyval)
        (query : pyval) :
  httpMethod event = Some (str "POST") ->
  json_loads w (raw_body_of event) = inr payload ->
  walk_messages payload = inr (PList (PDict m :: later)) ->
  spec_text m = Some query ->
  handle_post cfg w (raw_body_of event) = process cfg w query (spec_sender m)
  /\ agent_calls (trace_of (lambda_handler cfg w event))
     = [ {| agentId := BEDROCK_AGENT_ID cfg;
            agentAliasId := BEDROCK_ALIAS_ID cfg;
            sessionId := spec_sender m;
            inputText := query;
            sessionState := None |} ]
  /\ (forall p,
         In p (sends (trace_of (lambda_handler cfg w event))) ->
         exists reply, p = message_payload (spec_sender m) reply)
  /\ (List.length (sends (trace_of (lambda_handler cfg w event))) <= 1)%nat.
Proof.
  intros Hm Hl Hw Ht.
  destruct (delivery_calls cfg w event payload m later query Hm Hl Hw Ht)
    as [Ha Hs].
  split; [now apply (handle_post_message cfg w _ payload query m later) |].
  split; [exact Ha |]. rewrite Hs.
  destruct (result_of (invoke_agent cfg w query (spec_sender m) PNone))
    as [e | a]; split.
  - intros p [].
  - cbn. lia.
  - intros p [<- | []]. now exists a.
  - cbn. lia.
Qed.

(** A delivery of two messages: the agent is asked once, about the
    first. *)
Lemma first_message_only_witness :
  agent_calls (trace_of (lambda_handler sample_cfg hello_world two_messages_event))
  = [ call_args sample_cfg (PStr (str "hi")) (PStr (str "15551234567")) ].
Proof.
  assert (Hl : json_loads hello_world (raw_body_of two_messages_event)
               = inr (delivery [ (str "messages",
                                  PList [hi_message; later_message]) ]))
    by (vm_compute; reflexivity).
  pose proof (first_message_only sample_cfg hello_world two_messages_event
                _ _ _ (PStr (str "hi")) eq_refl Hl eq_refl eq_refl) as H.
  exact (proj1 (proj2 H)).
Defined.

(** A message without a [text] member is passed on with the empty
    string. *)
Example image_message_has_empty_text :
  agent_calls (trace_of (lambda_handler sample_cfg hello_world
                           (post_event (json_delivery (json_messages json_image)))))
  = [ call_args sample_cfg (PStr (str "")) (PStr (str "15551234567")) ].
Proof. vm_compute. reflexivity. Qed.

(** The scenario of the specification: the notifier gets the sender and
    the two chunks joined, the response is the success body. *)
Example scenario_hello_there :
  result_of (lambda_handler sample_cfg hello_world
               (post_event (json_delivery (json_messages json_hi))))
  = inr (json_response 200 "message" (str "Message processed"))
  /\ sends (trace_of (lambda_handler sample_cfg hello_world
                        (post_event (json_delivery (json_messages json_hi)))))
     = [ message_payload (PStr (str "15551234567")) (str "Hello there") ].
Proof. split; vm_compute; reflexivity. Qed.

(** A [text] member that is present and is no object stops the
    extraction with an [AttributeError], which the dispatcher turns
    into a 500. *)
Example null_text_is_500 :
  let payload :=
    delivery [ (str "messages",
                PList [ PDict [ (str "from", PStr (str "1"));
                                (str "text", PNone) ] ]) ] in
  result_of (handle_post sample_cfg
               (sample_world [ (str "null text", payload) ] (agent_says [])
                             transport_ok)
               (PStr (str "null text")))
  = inl (mkExn AttributeError
               (str "'NoneType' object has no attribute 'get'")).
Proof. vm_compute. reflexivity. Qed.

(* ------------------------------------------------------------------ *)
(** ** A failing agent backend *)

(** C5, as the code has it.  On a delivery that carries a message, a
    backend failure of class [ClientError] is caught by the invoker,
    which returns a text ending in the error's description; the
    dispatcher answers 200 and the notifier is called once, with the
    sender and that text.  A failure of any other class leaves the
    invoker as an exception; the dispatcher answers 500 and the
    notifier is not called. *)
Theorem client_error_degrades_to_text (cfg : config) (w : world)
        (event : gateway_event) (payload : pyval) (m : list (pystr * pyval))
        (later : list pyval) (query : pyval) (e : exn) :
  httpMethod event = Some (str "POST") ->
  json_loads w (raw_body_of event) = inr payload ->
  walk_messages payload = inr (PList (PDict m :: later)) ->
  spec_text m = Some query ->
  bedrock_invoke_agent w (call_args cfg query (spec_sender m)) = inl e ->
  (is_ClientError e = true ->
   result_of (invoke_agent cfg w query (spec_sender m) PNone)
   = inr (str "Error invoking agent: " ++ exn_descr e)
   /\ result_of (lambda_handler cfg w event)
      = inr (json_response 200 "message" (str "Message processed"))
   /\ sends (trace_of (lambda_handler cfg w event))
      = [ message_payload (spec_sender m)
                          (str "Error invoking agent: " ++ exn_descr e) ])
  /\ (is_ClientError e = false ->
      result_of (invoke_agent cfg w query (spec_sender m) PNone) = inl e
      /\ result_of (lambda_handler cfg w event)
         = inr (json_response 500 "error" (exn_descr e))
      /\ sends (trace_of (lambda_handler cfg w event)) = []).
Proof.
  intros Hm Hl Hw Ht He.
  destruct (delivery_calls cfg w event payload m later query Hm Hl Hw Ht)
    as [_ Hs].
  rewrite Hs, (delivery_result cfg w event payload m later query Hm Hl Hw Ht).
  rewrite invoke_result, He.
  split; intros ->; repeat split; reflexivity.
Qed.

Lemma client_error_degrades_to_text_witness :
  result_of (lambda_handler sample_cfg (failing_world throttled) hi_event)
  = inr (json_response 200 "message" (str "Message processed"))
  /\ sends (trace_of (lambda_handler sample_cfg (failing_world throttled) hi_event))
     = [ message_payload (PStr (str "15551234567"))
                         (str "Error invoking agent: " ++ exn_descr throttled) ].
Proof.
  assert (Hl : json_loads (failing_world throttled) (raw_body_of hi_event)
               = inr (delivery [ (str "messages", PList [hi_message]) ]))
    by (vm_compute; reflexivity).
  pose proof (client_error_degrades_to_text sample_cfg (failing_world throttled)
                hi_event _ _ _ (PStr (str "hi")) throttled
                eq_refl Hl eq_refl eq_refl eq_refl) as [H _].
  exact (proj2 (H eq_refl)).
Defined.

(** C5 as stated fails: a read time-out of the backend call is no
    [ClientError]; it leaves [invoke_agent] as an exception, the
    dispatcher answers 500 and nothing is sent. *)
Lemma timeout_reaches_dispatcher :
  result_of (invoke_agent sample_cfg (failing_world timed_out)
               (PStr (str "hi")) (PStr (str "15551234567")) PNone)
  = inl timed_out
  /\ result_of (lambda_handler sample_cfg (failing_world timed_out) hi_event)
     = inr (json_response 500 "error" (str "Read timeout on endpoint URL"))
  /\ sends (trace_of (lambda_handler sample_cfg (failing_world timed_out) hi_event))
     = [].
Proof. repeat split; vm_compute; reflexivity. Qed.

(* ------------------------------------------------------------------ *)
(** ** A failing transport *)

(** The response does not depend on what the transport does. *)
Lemma response_ignores_transport (cfg : config) (w : world)
      (h : pystr -> pyval -> list (pystr * pystr) -> exn + (Z * list Byte.byte))
      (event : gateway_event) :
  result_of (lambda_handler cfg (with_transport w h) event)
  = result_of (lambda_handler cfg w event).
Proof.
  rewrite !handler_result. unfold after_audit.
  destruct (pystr_eqb _ (str "GET")); [reflexivity |].
  destruct (pystr_eqb _ (str "POST")); [| reflexivity].
  rewrite !result_try.
  set (raw := match event_body event with
              | Some b => b
              | None => PStr (str "{}")
              end).
  enough (E : result_of (handle_post cfg (with_transport w h) raw)
              = result_of (handle_post cfg w raw)) by now rewrite E.
  unfold handle_post.
  change (json_loads (with_transport w h)) with (json_loads w).
  destruct (json_loads w raw) as [e | parsed]; [reflexivity |].
  rewrite !bind_lift_inr.
  destruct (walk_messages parsed) as [e | messages]; [reflexivity |].
  rewrite !bind_lift_inr.
  destruct (negb (truthy messages)); [reflexivity |].
  destruct (py_index0 messages) as [e | message]; [reflexivity |].
  rewrite !bind_lift_inr.
  destruct (py_get message "from" PNone) as [e | from_number]; [reflexivity |].
  rewrite !bind_lift_inr.
  destruct (py_get message "text" (PDict [])) as [e | text]; [reflexivity |].
  rewrite !bind_lift_inr.
  destruct (py_get text "body" (PStr (str ""))) as [e | text_message];
    [reflexivity |].
  rewrite !bind_lift_inr, !result_bind. cbn [emit result_of snd].
  change (invoke_agent cfg (with_transport w h)) with (invoke_agent cfg w).
  destruct (result_of (invoke_agent cfg w text_message from_number PNone));
    [reflexivity |].
  now rewrite !result_bind, !send_result.
Qed.

(** C8.  On a delivery for which the agent produced a reply, a
    transport that raises is caught inside the notifier, which returns
    normally and leaves one ERROR record; the dispatcher's response is
    the success body with status 200, the same as with any other
    transport. *)
Theorem delivery_failure_is_invisible (cfg : config) (w : world)
        (event : gateway_event) (payload : pyval) (m : list (pystr * pyval))
        (later : list pyval) (query : pyval) (reply : pystr) (e : exn) :
  httpMethod event = Some (str "POST") ->
  json_loads w (raw_body_of event) = inr payload ->
  walk_messages payload = inr (PList (PDict m :: later)) ->
  spec_text m = Some query ->
  result_of (invoke_agent cfg w query (spec_sender m) PNone) = inr reply ->
  http_request w (WHATSAPP_API_URL cfg)
               (message_payload (spec_sender m) reply) (auth_headers cfg)
  = inl e ->
  result_of (send_whatsapp_message cfg w (spec_sender m) reply) = inr tt
  /\ logged ERROR (trace_of (send_whatsapp_message cfg w (spec_sender m) reply))
     = [LogSendFailed e]
  /\ result_of (lambda_handler cfg w event)
     = inr (json_response 200 "message" (str "Message processed"))
  /\ (forall h,
         result_of (lambda_handler cfg (with_transport w h) event)
         = result_of (lambda_handler cfg w event)).
Proof.
  intros Hm Hl Hw Ht Hr Hh.
  split; [apply send_result |].
  split; [now apply send_failure_logged |].
  split.
  - rewrite (delivery_result cfg w event payload m later query Hm Hl Hw Ht).
    now rewrite Hr.
  - intros h. apply response_ignores_transport.
Qed.

Lemma delivery_failure_is_invisible_witness :
  result_of (lambda_handler sample_cfg undelivered_world hi_event)
  = inr (json_response 200 "message" (str "Message processed"))
  /\ logged ERROR (trace_of (lambda_handler sample_cfg undelivered_world hi_event))
     = [ LogSendFailed (mkExn OtherException (str "Connection refused")) ].
Proof.
  assert (Hl : json_loads undelivered_world (raw_body_of hi_event)
               = inr (delivery [ (str "messages", PList [hi_message]) ]))
    by (vm_compute; reflexivity).
  assert (Hr : result_of (invoke_agent sample_cfg undelivered_world
                            (PStr (str "hi")) (spec_sender
                               [ (str "from", PStr (str "15551234567"));
                                 (str "text", PDict [ (str "body", PStr (str "hi")) ]) ])
                            PNone)
               = inr (str "Hello there"))
    by (vm_compute; reflexivity).
  pose proof (delivery_failure_is_invisible sample_cfg undelivered_world
                hi_event _ _ _ (PStr (str "hi")) (str "Hello there")
                (mkExn OtherException (str "Connection refused"))
                eq_refl Hl eq_refl eq_refl Hr eq_refl) as [_ [_ [H _]]].
  split; [exact H | vm_compute; reflexivity].
Defined.

(* ------------------------------------------------------------------ *)
(** * Further properties of [lambda_function_03_bedrock.py] *)

(** ** The shape of a run *)

Lemma puts_app (t u : list effect) : puts (t ++ u) = puts t ++ puts u.
Proof. apply flat_map_app. Qed.

Lemma log_of_app (t u : list effect) : log_of (t ++ u) = log_of t ++ log_of u.
Proof. apply flat_map_app. Qed.

Lemma trace_result_eta {A : Type} (m : M A) : m = (trace_of m, result_of m).
Proof. now destruct m. Qed.

(** The [try] body of the POST branch either stops before any call,
    with an empty trace and, if it returns, the informational
    response; or it is the processing of one sender and one text. *)
Lemma handle_post_cases (cfg : config) (w : world) (raw : pyval) :
  (exists r,
      handle_post cfg w raw = ([], r)
      /\ forall resp,
          r = inr resp ->
          resp = json_response 200 "message"
                   (str "No message object found in webhook"))
  \/ (exists query from_number,
         handle_post cfg w raw = process cfg w query from_number).
Proof.
  unfold handle_post.
  destruct (json_loads w raw) as [e | parsed];
    [left; exists (inl e); now split |].
  rewrite bind_lift_inr.
  destruct (walk_messages parsed) as [e | messages];
    [left; exists (inl e); now split |].
  rewrite bind_lift_inr.
  destruct (negb (truthy messages)).
  { left. eexists. split; [reflexivity |]. now intros resp [= <-]. }
  destruct (py_index0 messages) as [e | message];
    [left; exists (inl e); now split |].
  rewrite bind_lift_inr.
  destruct (py_get message "from" PNone) as [e | from_number];
    [left; exists (inl e); now split |].
  rewrite bind_lift_inr.
  destruct (py_get message "text" (PDict [])) as [e | text];
    [left; exists (inl e); now split |].
  rewrite bind_lift_inr.
  destruct (py_get text "body" (PStr (str ""))) as [e | text_message];
    [left; exists (inl e); now split |].
  rewrite bind_lift_inr. right. now exists text_message, from_number.
Qed.

Lemma aggregate_puts (w : world) (events : list agent_event) :
  forall acc, puts (trace_of (aggregate w acc events)) = [].
Proof.
  induction events as [| ev rest IH]; intros acc; cbn [aggregate];
    [reflexivity |].
  destruct (chunk ev) as [[[b |]] |].
  - rewrite trace_bind. unfold lift at 1 2. cbn [trace_of result_of fst snd].
    destruct (bytes_decode w b); cbn [app]; [reflexivity | apply IH].
  - destruct (trace ev); rewrite trace_bind; cbn; apply IH.
  - destruct (trace ev); rewrite trace_bind; cbn; apply IH.
Qed.

Lemma invoke_agent_unfold (cfg : config) (w : world)
      (query session session_state : pyval) :
  invoke_agent cfg w query session session_state
  = try_except
      (emit (InvokeAgent (call_args_with cfg query session session_state)) ;;;
       completion <- lift (bedrock_invoke_agent w
                             (call_args_with cfg query session session_state)) ;;
       if negb (completion_truthy completion) then ret no_response
       else aggregate w [] (completion_events completion))
      is_ClientError
      (fun error =>
         emit (Log ERROR (LogInvokeError error)) ;;;
         ret (str "Error invoking agent: " ++ exn_descr error)).
Proof. reflexivity. Qed.

Lemma invoke_result_with (cfg : config) (w : world)
      (query session session_state : pyval) :
  result_of (invoke_agent cfg w query session session_state)
  = match bedrock_invoke_agent w
            (call_args_with cfg query session session_state) with
    | inl e =>
      if is_ClientError e
      then inr (str "Error invoking agent: " ++ exn_descr e)
      else inl e
    | inr c =>
      if completion_truthy c
      then result_of (aggregate w [] (completion_events c))
      else inr no_response
    end.
Proof.
  rewrite invoke_agent_unfold, result_try, result_bind.
  cbn [emit result_of snd]. rewrite result_bind.
  destruct (bedrock_invoke_agent w _) as [e | c]; cbn [lift result_of snd].
  - destruct (is_ClientError e); reflexivity.
  - destruct (completion_truthy c); cbn [negb]; [| reflexivity].
    destruct (result_of (aggregate w [] (completion_events c))) as [e |] eqn:E;
      [| reflexivity].
    apply aggregate_raises in E. unfold is_ClientError. now rewrite E.
Qed.

Lemma invoke_trace_with (cfg : config) (w : world)
      (query session session_state : pyval) :
  exists rest,
    trace_of (invoke_agent cfg w query session session_state)
    = InvokeAgent (call_args_with cfg query session session_state) :: rest
    /\ agent_calls rest = [] /\ sends rest = [] /\ puts rest = [].
Proof.
  rewrite invoke_agent_unfold, trace_try, trace_bind, result_bind.
  cbn [emit trace_of result_of fst snd].
  rewrite trace_bind, result_bind.
  destruct (bedrock_invoke_agent w _) as [e | c];
    cbn [lift trace_of result_of fst snd app].
  - destruct (is_ClientError e); eexists; (split; [reflexivity |]); now cbn.
  - destruct (completion_truthy c); cbn [negb].
    + eexists. split; [reflexivity |].
      destruct (aggregate_calls w (completion_events c) []) as [Ha Hs].
      pose proof (aggregate_puts w (completion_events c) []) as Hp.
      rewrite agent_calls_app, sends_app, puts_app, Ha, Hs, Hp.
      destruct (result_of (aggregate w [] (completion_events c))) as [e |];
        [| now cbn].
      destruct (is_ClientError e); now cbn.
    + eexists. split; [reflexivity |]. now cbn.
Qed.

Lemma store_trace (w : world) (prefix : pystr) (data : stored) :
  trace_of (store_event_to_s3 w prefix data)
  = [ PutObject prefix data;
      match put_object w prefix data with
      | None => Log INFO (LogStored prefix)
      | Some e => Log ERROR (LogStoreFailed prefix e)
      end ].
Proof.
  unfold store_event_to_s3. rewrite trace_bind.
  cbn [emit trace_of result_of fst snd].
  now destruct (put_object w prefix data).
Qed.

Lemma handler_trace (cfg : config) (w : world) (event : gateway_event) :
  trace_of (lambda_handler cfg w event)
  = trace_of (store_event_to_s3 w (str "event") (StoredEvent event))
    ++ trace_of (store_event_to_s3 w (str "body")
                   (StoredValue (raw_body_of event)))
    ++ trace_of (after_audit cfg w event).
Proof.
  unfold lambda_handler. rewrite trace_bind, store_result.
  rewrite trace_bind, store_result. reflexivity.
Qed.

Lemma process_puts (cfg : config) (w : world) (query from_number : pyval) :
  puts (trace_of (process cfg w query from_number)) = [].
Proof.
  unfold process. rewrite trace_bind. cbn [emit trace_of result_of fst snd].
  rewrite trace_bind.
  destruct (invoke_trace_with cfg w query from_number PNone)
    as [rest [Ht [_ [_ Hp]]]].
  rewrite !puts_app, Ht. cbn [puts flat_map app]. fold (puts rest). rewrite Hp.
  destruct (result_of (invoke_agent cfg w query from_number PNone)) as [e | a];
    [reflexivity |].
  rewrite trace_bind, send_result, puts_app.
  destruct (send_trace cfg w from_number a) as [r ->]. reflexivity.
Qed.

Lemma after_audit_puts (cfg : config) (w : world) (event : gateway_event) :
  puts (trace_of (after_audit cfg w event)) = [].
Proof.
  unfold after_audit.
  destruct (pystr_eqb _ (str "GET")); [now destruct (_ && _) |].
  destruct (pystr_eqb _ (str "POST")); [| reflexivity].
  rewrite trace_try, puts_app.
  destruct (handle_post_cases cfg w
              (match event_body event with
               | Some b => b
               | None => PStr (str "{}")
               end)) as [[r [-> _]] | [q [f ->]]].
  - destruct r; reflexivity.
  - rewrite process_puts.
    destruct (result_of (process cfg w q f)); reflexivity.
Qed.

(** ** The audit writes *)

(** X1.  Whatever the method and whatever the store answers, a run
    starts with the write of the event, its log record, the write of
    the raw body (['{}'] when the event has none) and its log record;
    a refused write is logged at ERROR and the next one is still made;
    nothing else is written to the store. *)
Theorem audit_writes_come_first (cfg : config) (w : world)
        (event : gateway_event) :
  exists rest,
    trace_of (lambda_handler cfg w event)
    = PutObject (str "event") (StoredEvent event)
      :: match put_object w (str "event") (StoredEvent event) with
         | None => Log INFO (LogStored (str "event"))
         | Some e => Log ERROR (LogStoreFailed (str "event") e)
         end
      :: PutObject (str "body") (StoredValue (raw_body_of event))
      :: match put_object w (str "body") (StoredValue (raw_body_of event)) with
         | None => Log INFO (LogStored (str "body"))
         | Some e => Log ERROR (LogStoreFailed (str "body") e)
         end
      :: rest
    /\ puts rest = [].
Proof.
  exists (trace_of (after_audit cfg w event)).
  split; [| apply after_audit_puts].
  now rewrite handler_trace, !store_trace.
Qed.

(** X2.  The response, the calls to the agent and the messages sent
    are the same whatever the audit store does. *)
Theorem audit_outcome_is_invisible (cfg : config) (w : world)
        (p : pystr -> stored -> option exn) (event : gateway_event) :
  result_of (lambda_handler cfg (with_store w p) event)
  = result_of (lambda_handler cfg w event)
  /\ agent_calls (trace_of (lambda_handler cfg (with_store w p) event))
     = agent_calls (trace_of (lambda_handler cfg w event))
  /\ sends (trace_of (lambda_handler cfg (with_store w p) event))
     = sends (trace_of (lambda_handler cfg w event)).
Proof.
  rewrite !handler_result, !handler_agent_calls, !handler_sends.
  change (after_audit cfg (with_store w p) event)
    with (after_audit cfg w event).
  now split.
Qed.

(** ** The agent invoker *)

(** X3.  [invoke_agent] calls the backend exactly once, whatever comes
    back, with the configured agent and alias, the conversation id as
    session and the query as input; a session state reaches the
    backend only when it is true: [None] and the empty dictionary are
    left out. *)
Theorem invoke_agent_calls_once (cfg : config) (w : world)
        (query session session_state : pyval) :
  agent_calls (trace_of (invoke_agent cfg w query session session_state))
  = [ {| agentId := BEDROCK_AGENT_ID cfg;
         agentAliasId := BEDROCK_ALIAS_ID cfg;
         sessionId := session;
         inputText := query;
         sessionState := if truthy session_state then Some session_state
                         else None |} ]
  /\ sends (trace_of (invoke_agent cfg w query session session_state)) = []
  /\ puts (trace_of (invoke_agent cfg w query session session_state)) = [].
Proof.
  destruct (invoke_trace_with cfg w query session session_state)
    as [rest [-> [Ha [Hs Hp]]]].
  cbn [agent_calls sends puts flat_map app].
  fold (agent_calls rest) (sends rest) (puts rest).
  now rewrite Ha, Hs, Hp.
Qed.

(** X4.  What leaves [invoke_agent] as an exception is never a
    [ClientError]: it is the backend call's own error of another
    class, or the [UnicodeDecodeError] of a chunk. *)
Theorem invoke_agent_raises (cfg : config) (w : world)
        (query session session_state : pyval) (e : exn) :
  result_of (invoke_agent cfg w query session session_state) = inl e ->
  is_ClientError e = false
  /\ (bedrock_invoke_agent w (call_args_with cfg query session session_state)
      = inl e
      \/ exn_class_of e = UnicodeDecodeError).
Proof.
  rewrite invoke_result_with.
  destruct (bedrock_invoke_agent w _) as [e' | c].
  - destruct (is_ClientError e') eqn:E; [discriminate |].
    intros [= <-]. split; [exact E | now left].
  - destruct (completion_truthy c); [| discriminate].
    intros H. apply aggregate_raises in H.
    split; [unfold is_ClientError; now rewrite H | now right].
Qed.

Lemma invoke_agent_raises_witness :
  is_ClientError timed_out = false.
Proof.
  apply (invoke_agent_raises sample_cfg (failing_world timed_out)
           (PStr (str "hi")) (PStr (str "15551234567")) PNone timed_out).
  vm_compute. reflexivity.
Defined.

(** ** The dispatcher *)

Lemma get_is_not_post : str "GET" <> str "POST".
Proof. intros H. vm_compute in H. discriminate. Qed.

Lemma post_status (cfg : config) (w : world) (raw : pyval) :
  exists resp,
    result_of (try_except (handle_post cfg w raw) except_Exception
                 (fun e =>
                    emit (Log ERROR (LogPostError e)) ;;;
                    ret (json_response 500 "error" (exn_descr e))))
    = inr resp
    /\ (statusCode resp = 200%Z \/ statusCode resp = 500%Z).
Proof.
  rewrite result_try.
  destruct (handle_post_cases cfg w raw) as [[r [-> Hr]] | [q [f ->]]].
  - destruct r as [e | resp]; cbn [result_of snd except_Exception].
    + eexists. split; [reflexivity |]. now right.
    + exists resp. split; [reflexivity |]. rewrite (Hr resp eq_refl). now left.
  - rewrite process_result.
    destruct (result_of (invoke_agent cfg w q f PNone));
      cbn [except_Exception]; eexists; (split; [reflexivity |]);
      [now right | now left].
Qed.

(** X5.  Every event gets a response, and its status is fixed by the
    method: 200 or 403 for GET, 200 or 500 for POST, 405 for anything
    else. *)
Theorem status_by_method (cfg : config) (w : world) (event : gateway_event) :
  exists resp,
    result_of (lambda_handler cfg w event) = inr resp
    /\ (method_of event = str "GET"
        -> statusCode resp = 200%Z \/ statusCode resp = 403%Z)
    /\ (method_of event = str "POST"
        -> statusCode resp = 200%Z \/ statusCode resp = 500%Z)
    /\ (method_of event <> str "GET" -> method_of event <> str "POST"
        -> statusCode resp = 405%Z).
Proof.
  rewrite handler_result. unfold after_audit. fold (method_of event).
  destruct (pystr_eqb (method_of event) (str "GET")) eqn:Eg.
  - apply pystr_eqb_eq in Eg.
    assert (Hp : method_of event <> str "POST").
    { rewrite Eg. apply get_is_not_post. }
    destruct (_ && _); eexists; (split; [reflexivity |]);
      (split; [intros _; cbn [statusCode json_response]; auto |]);
      (split; [intros H; contradiction | intros H; contradiction]).
  - assert (Hg : method_of event <> str "GET").
    { intros H. rewrite H in Eg. discriminate. }
    destruct (pystr_eqb (method_of event) (str "POST")) eqn:Ep.
    + apply pystr_eqb_eq in Ep.
      destruct (post_status cfg w
                  (match event_body event with
                   | Some b => b
                   | None => PStr (str "{}")
                   end)) as [resp [Hr Hs]].
      exists resp. split; [exact Hr |].
      split; [intros H; contradiction |].
      split; [intros _; exact Hs | intros _ H; contradiction].
    + eexists. split; [reflexivity |].
      split; [intros H; contradiction |].
      split; [intros H; rewrite H in Ep; discriminate | reflexivity].
Qed.

(** X6.  In any run the agent is called at most once and a message is
    sent at most once; a message is sent only on a POST, after the one
    agent call has returned a reply, to the sender that was the
    session of that call and with that reply as its text, and the
    response is then the success body. *)
Theorem reply_follows_agent (cfg : config) (w : world) (event : gateway_event) :
  (List.length (agent_calls (trace_of (lambda_handler cfg w event))) <= 1)%nat
  /\ (sends (trace_of (lambda_handler cfg w event)) = []
      \/ exists query from_number reply,
          method_of event = str "POST"
          /\ agent_calls (trace_of (lambda_handler cfg w event))
             = [call_args cfg query from_number]
          /\ result_of (invoke_agent cfg w query from_number PNone) = inr reply
          /\ sends (trace_of (lambda_handler cfg w event))
             = [message_payload from_number reply]
          /\ result_of (lambda_handler cfg w event)
             = inr (json_response 200 "message" (str "Message processed"))).
Proof.
  rewrite handler_result, handler_agent_calls, handler_sends.
  unfold after_audit. fold (method_of event).
  destruct (pystr_eqb (method_of event) (str "GET")).
  { destruct (_ && _); cbn; split; auto. }
  destruct (pystr_eqb (method_of event) (str "POST")) eqn:Ep;
    [| cbn; split; auto].
  apply pystr_eqb_eq in Ep.
  rewrite trace_try, result_try, agent_calls_app, sends_app.
  destruct (handle_post_cases cfg w
              (match event_body event with
               | Some b => b
               | None => PStr (str "{}")
               end)) as [[r [-> _]] | [q [f ->]]].
  - destruct r; cbn; split; auto.
  - destruct (process_calls cfg w q f) as [Ha Hs]. rewrite Ha, Hs.
    rewrite process_result.
    destruct (result_of (invoke_agent cfg w q f PNone)) as [e | reply] eqn:E.
    + cbn. split; auto.
    + cbn. split; [lia |]. right. exists q, f, reply. now repeat split.
Qed.

(** ** The walk to the messages *)

(** [v.get(key, default)] on a dictionary. *)
Lemma py_get_dict (d : list (pystr * pyval)) (key : string) (default : pyval) :
  py_get (PDict d) key default
  = inr (match dict_lookup (str key) d with
         | Some x => x
         | None => default
         end).
Proof. cbn [py_get]. now destruct (dict_lookup (str key) d). Qed.

Lemma py_get_inr (v : pyval) (key : string) (default x : pyval) :
  py_get v key default = inr x -> exists d, v = PDict d.
Proof. destruct v; try discriminate. intros _. now eexists. Qed.

(** X7.  The walk reaches a value exactly when the payload is an
    object whose [entry] is an array that starts with an object, whose
    [changes] is an array that starts with an object, whose [value] is
    missing or an object; the value reached is then the [messages]
    member of that [value], or the empty array when there is none. *)
Theorem walk_messages_reaches (payload v : pyval) :
  walk_messages payload = inr v
  <-> exists d e0 more c0 more',
      payload = PDict d
      /\ dict_lookup (str "entry") d = Some (PList (PDict e0 :: more))
      /\ dict_lookup (str "changes") e0 = Some (PList (PDict c0 :: more'))
      /\ ((dict_lookup (str "value") c0 = None /\ v = PList [])
          \/ exists vd,
                dict_lookup (str "value") c0 = Some (PDict vd)
                /\ v = match dict_lookup (str "messages") vd with
                       | Some x => x
                       | None => PList []
                       end).
Proof.
  split.
  - unfold walk_messages.
    destruct (py_get payload "entry" (PList [])) as [e | entry] eqn:E1;
      [discriminate |].
    destruct (py_index0 entry) as [e | entry0] eqn:E2; [discriminate |].
    destruct (py_get entry0 "changes" (PList [])) as [e | changes] eqn:E3;
      [discriminate |].
    destruct (py_index0 changes) as [e | change0] eqn:E4; [discriminate |].
    destruct (py_get change0 "value" (PDict [])) as [e | value] eqn:E5;
      [discriminate |].
    intros E6.
    destruct (py_get_inr _ _ _ _ E1) as [d ->].
    destruct (py_get_inr _ _ _ _ E3) as [e0 ->].
    destruct (py_get_inr _ _ _ _ E5) as [c0 ->].
    destruct (py_get_inr _ _ _ _ E6) as [vd ->].
    rewrite py_get_dict in E1, E3, E5, E6.
    injection E1 as E1. injection E3 as E3. injection E5 as E5.
    injection E6 as E6.
    destruct entry as [| | | | [| c s] | [| x more] | ]; try discriminate.
    injection E2 as ->.
    destruct changes as [| | | | [| c s] | [| x more'] | ]; try discriminate.
    injection E4 as ->.
    exists d, e0, more, c0, more'. split; [reflexivity |].
    destruct (dict_lookup (str "entry") d) as [x |]; [| discriminate].
    subst x. split; [reflexivity |].
    destruct (dict_lookup (str "changes") e0) as [x |]; [| discriminate].
    subst x. split; [reflexivity |].
    destruct (dict_lookup (str "value") c0) as [x |].
    + subst x. right. exists vd. now split.
    + injection E5 as <-. left. split; [reflexivity |].
      now subst v.
  - intros [d [e0 [more [c0 [more' [-> [H1 [H2 H3]]]]]]]].
    unfold walk_messages. rewrite py_get_dict, H1. cbn [py_index0].
    rewrite py_get_dict, H2. cbn [py_index0]. rewrite py_get_dict.
    destruct H3 as [[H3 ->] | [vd [H3 ->]]]; rewrite H3.
    + reflexivity.
    + apply py_get_dict.
Qed.

(** X8.  A POST whose body parses to anything but an object (an
    array, a string, a number, [null]) is answered with 500 and the
    text of the [AttributeError] for [get]; nothing is called. *)
Theorem non_object_body_is_500 (cfg : config) (w : world)
        (event : gateway_event) (payload : pyval) :
  httpMethod event = Some (str "POST") ->
  json_loads w (raw_body_of event) = inr payload ->
  (forall d, payload <> PDict d) ->
  result_of (lambda_handler cfg w event)
  = inr (json_response 500 "error"
           (str "'" ++ type_name payload
            ++ str "' object has no attribute 'get'"))
  /\ agent_calls (trace_of (lambda_handler cfg w event)) = []
  /\ sends (trace_of (lambda_handler cfg w event)) = [].
Proof.
  intros Hm Hl Hd.
  apply (broken_walk_is_500 cfg w event payload
           (attribute_error payload "get") Hm Hl).
  destruct payload; try reflexivity. now destruct (Hd d).
Qed.

Lemma non_object_body_is_500_witness :
  result_of (lambda_handler sample_cfg
               (sample_world [ (str "[]", PList []) ] (agent_says [])
                             transport_ok)
               (post_event (str "[]")))
  = inr (json_response 500 "error"
           (str "'list' object has no attribute 'get'")).
Proof.
  apply (non_object_body_is_500 sample_cfg
           (sample_world [ (str "[]", PList []) ] (agent_says []) transport_ok)
           (post_event (str "[]")) (PList []) eq_refl eq_refl).
  discriminate.
Defined.

(** X9.  When the value reached is true and its first element is no
    object (the value is a string, a number, a non-empty object, or an
    array that starts with something else), the response is a 500 and
    neither the agent nor the transport is called. *)
Theorem first_element_not_an_object (cfg : config) (w : world)
        (event : gateway_event) (payload messages : pyval) :
  httpMethod event = Some (str "POST") ->
  json_loads w (raw_body_of event) = inr payload ->
  walk_messages payload = inr messages ->
  truthy messages = true ->
  (forall m, py_index0 messages <> inr (PDict m)) ->
  (exists e,
      result_of (lambda_handler cfg w event)
      = inr (json_response 500 "error" (exn_descr e)))
  /\ agent_calls (trace_of (lambda_handler cfg w event)) = []
  /\ sends (trace_of (lambda_handler cfg w event)) = [].
Proof.
  intros Hm Hl Hw Ht Hn.
  destruct (post_calls cfg w event Hm) as [-> ->].
  rewrite (post_result cfg w event Hm).
  assert (E : exists e, handle_post cfg w (raw_body_of event) = raise e).
  { unfold handle_post.
    rewrite Hl, bind_lift_inr, Hw, bind_lift_inr, Ht. cbn [negb].
    destruct (py_index0 messages) as [e | message];
      [exists e; apply bind_lift_inl |].
    rewrite bind_lift_inr.
    destruct message; try (eexists; apply bind_lift_inl).
    now destruct (Hn d). }
  destruct E as [e ->]. split; [now exists e | now split].
Qed.

Lemma first_element_not_an_object_witness :
  agent_calls (trace_of (lambda_handler sample_cfg odd_world odd_event)) = [].
Proof.
  assert (Hl : json_loads odd_world (raw_body_of odd_event)
               = inr (delivery [ (str "messages", PStr (str "hi")) ]))
    by (vm_compute; reflexivity).
  apply (first_element_not_an_object sample_cfg odd_world odd_event
           (delivery [ (str "messages", PStr (str "hi")) ])
           (PStr (str "hi")) eq_refl Hl eq_refl eq_refl).
  discriminate.
Defined.

(** ** The aggregation loop, again *)

Lemma utf8_decode_N_app (b : list N) :
  forall n a x,
    (List.length a <= n)%nat ->
    utf8_decode_N a = Some x ->
    utf8_decode_N (a ++ b) = option_map (app x) (utf8_decode_N b).
Proof.
  induction n as [| n IH]; intros a x Hlen H.
  - destruct a; [| cbn in Hlen; lia]. injection H as <-.
    cbn [app]. now destruct (utf8_decode_N b).
  - destruct a as [| b0 r0].
    { injection H as <-. cbn [app]. now destruct (utf8_decode_N b). }
    cbn [List.length] in Hlen. cbn [utf8_decode_N app] in *.
    destruct (b0 <? 128).
    { destruct (utf8_decode_N r0) as [t |] eqn:E; [| discriminate].
      injection H as <-. rewrite (IH r0 t ltac:(lia) E).
      now destruct (utf8_decode_N b). }
    destruct (between 194 223 b0).
    { destruct r0 as [| b1 r1]; [discriminate |].
      cbn [List.length app] in *.
      destruct (is_cont b1); [| discriminate].
      destruct (utf8_decode_N r1) as [t |] eqn:E; [| discriminate].
      injection H as <-. rewrite (IH r1 t ltac:(lia) E).
      now destruct (utf8_decode_N b). }
    destruct (between 224 239 b0).
    { destruct r0 as [| b1 [| b2 r2]]; try discriminate.
      cbn [List.length app] in *.
      destruct (_ && is_cont b2); [| discriminate].
      destruct (utf8_decode_N r2) as [t |] eqn:E; [| discriminate].
      injection H as <-. rewrite (IH r2 t ltac:(lia) E).
      now destruct (utf8_decode_N b). }
    destruct (between 240 244 b0); [| discriminate].
    destruct r0 as [| b1 [| b2 [| b3 r3]]]; try discriminate.
    cbn [List.length app] in *.
    destruct (_ && is_cont b3); [| discriminate].
    destruct (utf8_decode_N r3) as [t |] eqn:E; [| discriminate].
    injection H as <-. rewrite (IH r3 t ltac:(lia) E).
    now destruct (utf8_decode_N b).
Qed.

(** Two byte strings that decode on their own decode together, to the
    two texts joined. *)
Lemma utf8_decode_app (a b : list Byte.byte) (x y : pystr) :
  utf8_decode a = Some x ->
  utf8_decode b = Some y ->
  utf8_decode (a ++ b) = Some (x ++ y).
Proof.
  unfold utf8_decode. intros Ha Hb. rewrite map_app.
  rewrite (utf8_decode_N_app _ _ _ x (le_n _) Ha), Hb. reflexivity.
Qed.

Lemma utf8_decode_concat (chunks : list (list Byte.byte)) (texts : list pystr) :
  Forall2 (fun b t => utf8_decode b = Some t) chunks texts ->
  utf8_decode (List.concat chunks) = Some (List.concat texts).
Proof.
  induction 1 as [| b t bs ts Hb _ IH]; [reflexivity |].
  cbn [List.concat]. now apply utf8_decode_app.
Qed.

(** A run of the loop that returns has decoded every chunk. *)
Lemma aggregate_returns (w : world) (events : list agent_event) :
  forall acc s,
    result_of (aggregate w acc events) = inr s ->
    exists texts,
      Forall2 (fun b t => utf8_decode b = Some t) (chunk_bytes events) texts
      /\ s = acc ++ List.concat texts.
Proof.
  induction events as [| ev rest IH]; intros acc s;
    cbn [aggregate chunk_bytes flat_map].
  - intros [= <-]. exists []. split; [constructor | now rewrite app_nil_r].
  - destruct (chunk ev) as [[[b |]] |]; cbn [app].
    + rewrite result_bind. unfold bytes_decode.
      destruct (utf8_decode b) as [t |] eqn:E; cbn [lift result_of snd];
        [| discriminate].
      intros H. destruct (IH _ _ H) as [texts [Hf ->]].
      exists (t :: texts). split; [now constructor |].
      cbn [List.concat]. now rewrite app_assoc.
    + destruct (trace ev); rewrite result_bind; cbn [emit result_of snd];
        apply IH.
    + destruct (trace ev); rewrite result_bind; cbn [emit result_of snd];
        apply IH.
Qed.

(** X10.  Whenever the loop returns a text, that text is the UTF-8
    decoding of the bytes of all chunk events joined in delivery
    order: nothing is lost, added or reordered. *)
Theorem aggregate_decodes_the_stream (w : world) (events : list agent_event)
        (s : pystr) :
  result_of (aggregate w [] events) = inr s ->
  utf8_decode (List.concat (chunk_bytes events)) = Some s.
Proof.
  intros H. destruct (aggregate_returns w events [] s H) as [texts [Hf ->]].
  now apply utf8_decode_concat.
Qed.

Lemma aggregate_decodes_the_stream_witness :
  utf8_decode (List.concat (chunk_bytes hello_events))
  = Some (str "Hello, world").
Proof.
  apply (aggregate_decodes_the_stream quiet_world hello_events).
  vm_compute. reflexivity.
Defined.

(** The converse fails: a character cut between two chunks decodes in
    the joined bytes and stops the loop. *)
Example cut_character :
  utf8_decode (List.concat (chunk_bytes cut_events))
  = Some (str "caf" ++ [233])
  /\ result_of (aggregate quiet_world [] cut_events)
     = inl (mkExn UnicodeDecodeError (str "'utf-8' codec can't decode bytes")).
Proof. split; vm_compute; reflexivity. Qed.

Lemma bad_chunk_stops_the_loop (w : world) (events : list agent_event)
      (acc : pystr) :
  Exists (fun b => utf8_decode b = None) (chunk_bytes events) ->
  exists e,
    result_of (aggregate w acc events) = inl e
    /\ exn_class_of e = UnicodeDecodeError.
Proof.
  intros H.
  destruct (result_of (aggregate w acc events)) as [e | s] eqn:E.
  - exists e. split; [reflexivity | now apply (aggregate_raises w events acc)].
  - exfalso. destruct (aggregate_returns w events acc s E) as [texts [Hf _]].
    clear E. induction Hf as [| b t bs ts Hb _ IH].
    + inversion H.
    + inversion H as [? ? Hn | ? ? Hn]; subst; [congruence | now apply IH].
Qed.

(** X11.  One chunk that is not valid UTF-8 on its own makes the loop
    raise a [UnicodeDecodeError], whatever was aggregated before and
    whatever follows; [invoke_agent] does not catch it. *)
Theorem undecodable_chunk_raises (cfg : config) (w : world)
        (events : list agent_event) (acc : pystr) :
  Exists (fun b => utf8_decode b = None) (chunk_bytes events) ->
  (exists e,
      result_of (aggregate w acc events) = inl e
      /\ exn_class_of e = UnicodeDecodeError)
  /\ (forall query session session_state c,
         bedrock_invoke_agent w
           (call_args_with cfg query session session_state) = inr c ->
         completion_truthy c = true ->
         completion_events c = events ->
         exists e,
           result_of (invoke_agent cfg w query session session_state) = inl e
           /\ exn_class_of e = UnicodeDecodeError).
Proof.
  intros H. split; [now apply bad_chunk_stops_the_loop |].
  intros query session session_state c Hc Ht He.
  rewrite invoke_result_with, Hc, Ht, He.
  now apply bad_chunk_stops_the_loop.
Qed.

Lemma undecodable_chunk_raises_witness :
  exists e,
    result_of (aggregate quiet_world [] cut_events) = inl e
    /\ exn_class_of e = UnicodeDecodeError.
Proof.
  assert (H : Exists (fun b => utf8_decode b = None) (chunk_bytes cut_events)).
  { apply Exists_cons_tl, Exists_cons_hd. reflexivity. }
  exact (proj1 (undecodable_chunk_raises sample_cfg quiet_world cut_events [] H)).
Defined.

(** X12.  The loop over a stream delivered in two parts is the loop
    over the first part followed by the loop over the second,
    started from the text reached. *)
Theorem aggregate_app (w : world) (first second : list agent_event) :
  forall acc,
    aggregate w acc (first ++ second)
    = (text <- aggregate w acc first ;; aggregate w text second).
Proof.
  induction first as [| ev rest IH]; intros acc; cbn [app aggregate].
  - unfold ret, bind. cbn. now destruct (aggregate w acc second).
  - destruct (chunk ev) as [[[b |]] |].
    + destruct (bytes_decode w b) as [e | t]; [reflexivity |].
      rewrite !bind_lift_inr. apply IH.
    + destruct (trace ev); unfold emit, bind at 1 3; cbn [fst snd];
        rewrite IH; unfold bind;
        destruct (aggregate w acc rest) as [t [e | x]]; cbn [fst snd app];
        try reflexivity.
    + destruct (trace ev); unfold emit, bind at 1 3; cbn [fst snd];
        rewrite IH; unfold bind;
        destruct (aggregate w acc rest) as [t [e | x]]; cbn [fst snd app];
        try reflexivity.
Qed.

Lemma aggregate_app_witness :
  result_of (aggregate quiet_world []
               ([chunk_event "Hel"; trace_event] ++ [chunk_event "lo"]))
  = inr (str "Hello").
Proof.
  rewrite (aggregate_app quiet_world [chunk_event "Hel"; trace_event]
             [chunk_event "lo"] []).
  vm_compute. reflexivity.
Defined.

(** X13.  A run of the loop that returns has written one DEBUG record
    for each trace event and one WARNING record for each event that is
    neither chunk nor trace, in delivery order, and nothing for the
    chunks. *)
Theorem aggregate_log (w : world) (events : list agent_event) :
  forall acc s,
    result_of (aggregate w acc events) = inr s ->
    log_of (trace_of (aggregate w acc events))
    = flat_map (fun ev =>
                  if is_chunk ev then []
                  else match trace ev with
                       | Some t => [(DEBUG, LogTrace t)]
                       | None => [(WARNING, LogUnexpectedEvent ev)]
                       end) events.
Proof.
  induction events as [| ev rest IH]; intros acc s;
    cbn [aggregate flat_map]; [reflexivity |].
  unfold is_chunk at 1.
  destruct (chunk ev) as [[[b |]] |].
  - rewrite result_bind, trace_bind.
    destruct (bytes_decode w b) as [e | t]; cbn [lift trace_of result_of fst snd];
      [discriminate |].
    intros H. cbn [app]. apply (IH _ _ H).
  - destruct (trace ev); rewrite result_bind, trace_bind;
      cbn [emit trace_of result_of fst snd]; intros H;
      rewrite log_of_app, (IH _ _ H); reflexivity.
  - destruct (trace ev); rewrite result_bind, trace_bind;
      cbn [emit trace_of result_of fst snd]; intros H;
      rewrite log_of_app, (IH _ _ H); reflexivity.
Qed.

Lemma aggregate_log_witness :
  log_of (trace_of (aggregate quiet_world [] hello_events))
  = [ (DEBUG, LogTrace (PDict [])); (WARNING, LogUnexpectedEvent unknown_event) ].
Proof.
  rewrite (aggregate_log quiet_world hello_events [] (str "Hello, world"));
    vm_compute; reflexivity.
Defined.

(** ** A reply that cannot be decoded *)

(** X14.  On a delivery that carries a message, when the backend
    answers with a true completion object in which a chunk is not
    valid UTF-8 on its own, no reply is sent and the response is a
    500: the text of the chunks before it is lost with it. *)
Theorem undecodable_reply_is_500 (cfg : config) (w : world)
        (event : gateway_event) (payload : pyval) (m : list (pystr * pyval))
        (later : list pyval) (query : pyval) (c : option completion) :
  httpMethod event = Some (str "POST") ->
  json_loads w (raw_body_of event) = inr payload ->
  walk_messages payload = inr (PList (PDict m :: later)) ->
  spec_text m = Some query ->
  bedrock_invoke_agent w (call_args cfg query (spec_sender m)) = inr c ->
  completion_truthy c = true ->
  Exists (fun b => utf8_decode b = None) (chunk_bytes (completion_events c)) ->
  (exists e,
      exn_class_of e = UnicodeDecodeError
      /\ result_of (lambda_handler cfg w event)
         = inr (json_response 500 "error" (exn_descr e)))
  /\ sends (trace_of (lambda_handler cfg w event)) = [].
Proof.
  intros Hm Hl Hw Ht Hc Htr Hex.
  destruct (bad_chunk_stops_the_loop w (completion_events c) [] Hex)
    as [e [He Hcl]].
  assert (Hi : result_of (invoke_agent cfg w query (spec_sender m) PNone)
               = inl e).
  { now rewrite invoke_result, Hc, Htr. }
  destruct (delivery_calls cfg w event payload m later query Hm Hl Hw Ht)
    as [_ Hs].
  rewrite Hs, (delivery_result cfg w event payload m later query Hm Hl Hw Ht), Hi.
  split; [now exists e | reflexivity].
Qed.

Lemma undecodable_reply_is_500_witness :
  sends (trace_of (lambda_handler sample_cfg
                     (sample_world scenario_docs (agent_says cut_events)
                                   transport_ok)
                     hi_event))
  = [].
Proof.
  assert (Hl : json_loads (sample_world scenario_docs (agent_says cut_events)
                                        transport_ok)
                          (raw_body_of hi_event)
               = inr (delivery [ (str "messages", PList [hi_message]) ]))
    by (vm_compute; reflexivity).
  apply (undecodable_reply_is_500 sample_cfg
           (sample_world scenario_docs (agent_says cut_events) transport_ok)
           hi_event _ _ _ (PStr (str "hi")) (Some (EventStream cut_events))
           eq_refl Hl eq_refl eq_refl eq_refl eq_refl).
  apply Exists_cons_tl, Exists_cons_hd. reflexivity.
Defined.

(** ** The outbound notifier *)

(** X15.  [send_whatsapp_message] makes exactly one request, to the
    messages URL of the configured phone number, carrying the
    recipient and the text in a WhatsApp text payload and the bearer
    credential in its headers; it never raises; and the one record it
    logs is at INFO only when the transport answered and the answer's
    body is valid UTF-8: an answer that cannot be decoded is logged as
    a failed send although the request was made. *)
Theorem send_contract (cfg : config) (w : world) (to_number : pyval)
        (message_body : pystr) :
  result_of (send_whatsapp_message cfg w to_number message_body) = inr tt
  /\ trace_of (send_whatsapp_message cfg w to_number message_body)
     = [ HttpPost
           (str "https://graph.facebook.com/" ++ API_VERSION cfg ++ str "/"
            ++ format_setting (PHONE_NUMBER_ID cfg) ++ str "/messages")
           (PDict [ (str "messaging_product", PStr (str "whatsapp"));
                    (str "to", to_number);
                    (str "type", PStr (str "text"));
                    (str "text", PDict [ (str "body", PStr message_body) ]) ])
           [ (str "Authorization",
              str "Bearer " ++ format_setting (ACCESS_TOKEN cfg));
             (str "Content-Type", str "application/json") ];
         match http_request w (WHATSAPP_API_URL cfg)
                 (message_payload to_number message_body) (auth_headers cfg) with
         | inl e => Log ERROR (LogSendFailed e)
         | inr resp =>
           match utf8_decode (snd resp) with
           | Some data => Log INFO (LogSent to_number (fst resp) data)
           | None =>
             Log ERROR
                 (LogSendFailed
                    (mkExn UnicodeDecodeError (decode_error_text w (snd resp))))
           end
         end ].
Proof.
  split; [apply send_result |].
  unfold send_whatsapp_message, try_except, bind. cbn [emit lift fst snd app].
  destruct (http_request w _ _ _) as [e | resp]; cbn [fst snd app];
    [reflexivity |].
  unfold bytes_decode. destruct (utf8_decode (snd resp)); reflexivity.
Qed.

(** ** Settings *)

(** X16.  When the environment has no [VERIFY_TOKEN], the secret is
    the literal [undefined_token]: a handshake that submits it is
    accepted. *)
Theorem unset_token_accepts_default (env : environ) (w : world)
        (event : gateway_event) (params : list (pystr * pystr)) :
  environ_get env "VERIFY_TOKEN" = None ->
  httpMethod event = Some (str "GET") ->
  queryStringParameters event = Some params ->
  dict_lookup (str "hub.mode") params = Some (str "subscribe") ->
  dict_lookup (str "hub.verify_token") params = Some (str "undefined_token") ->
  result_of (lambda_handler (load_config env) w event)
  = inr {| statusCode := 200;
           body := match dict_lookup (str "hub.challenge") params with
                   | Some c => PStr c
                   | None => PNone
                   end |}.
Proof.
  intros He Hm Hq Hmode Htoken.
  assert (Hv : VERIFY_TOKEN (load_config env) = str "undefined_token").
  { unfold load_config, environ_get_default. cbn [VERIFY_TOKEN].
    unfold environ_get in He. now rewrite He. }
  rewrite handler_result. unfold after_audit, params_get.
  rewrite Hm, Hq, Hmode, Htoken, Hv.
  change (pystr_eqb (str "GET") (str "GET")) with true.
  cbn [eq_str]. now rewrite !pystr_eqb_refl.
Qed.

Lemma unset_token_accepts_default_witness :
  result_of (lambda_handler (load_config []) quiet_world
               (get_event [ (str "hub.mode", str "subscribe");
                            (str "hub.verify_token", str "undefined_token");
                            (str "hub.challenge", str "1158201444") ]))
  = inr {| statusCode := 200; body := PStr (str "1158201444") |}.
Proof.
  apply (unset_token_accepts_default [] quiet_world _
           [ (str "hub.mode", str "subscribe");
             (str "hub.verify_token", str "undefined_token");
             (str "hub.challenge", str "1158201444") ]);
    reflexivity.
Defined.

(** X17.  With [PHONE_NUMBER_ID] and [ACCESS_TOKEN] unset the notifier
    still makes its request: the URL has [None] where the phone number
    id goes, and the credential is [Bearer None]. *)
Theorem unset_credentials_still_post (env : environ) (w : world)
        (to_number : pyval) (message_body : pystr) :
  environ_get env "PHONE_NUMBER_ID" = None ->
  environ_get env "ACCESS_TOKEN" = None ->
  exists level record,
    trace_of (send_whatsapp_message (load_config env) w to_number message_body)
    = [ HttpPost
          (str "https://graph.facebook.com/"
           ++ environ_get_default env "API_VERSION" "v22.0"
           ++ str "/None/messages")
          (message_payload to_number message_body)
          [ (str "Authorization", str "Bearer None");
            (str "Content-Type", str "application/json") ];
        Log level record ].
Proof.
  intros Hp Ha.
  destruct (send_trace (load_config env) w to_number message_body) as [r ->].
  exists (fst r), (snd r).
  unfold WHATSAPP_API_URL, auth_headers, load_config.
  cbn [API_VERSION PHONE_NUMBER_ID ACCESS_TOKEN]. rewrite Hp, Ha.
  reflexivity.
Qed.

Lemma unset_credentials_still_post_witness :
  sends (trace_of (send_whatsapp_message (load_config []) quiet_world
                     (PStr (str "15551234567")) (str "hi")))
  = [ message_payload (PStr (str "15551234567")) (str "hi") ].
Proof.
  destruct (unset_credentials_still_post [] quiet_world
              (PStr (str "15551234567")) (str "hi") eq_refl eq_refl)
    as [level [record ->]].
  reflexivity.
Defined.

(* ------------------------------------------------------------------ *)
(** * The two earlier handlers *)

(** X18.  The first handler answers every POST with 200 and the JSON
    text of the message [Ok], whatever the body; on every other event
    its response is the response of the third handler. *)
Theorem subscribe_handler (cfg : config) (w : world) (event : gateway_event) :
  (method_of event = str "POST" ->
   snd (Subscribe.lambda_handler cfg event)
   = json_response 200 "message" (str "Ok"))
  /\ (method_of event <> str "POST" ->
      result_of (lambda_handler cfg w event)
      = inr (snd (Subscribe.lambda_handler cfg event))).
Proof.
  unfold Subscribe.lambda_handler. rewrite handler_result.
  unfold after_audit. fold (method_of event). split.
  - intros ->.
    change (pystr_eqb (str "POST") (str "GET")) with false.
    change (pystr_eqb (str "POST") (str "POST")) with true. reflexivity.
  - intros Hp.
    destruct (pystr_eqb (method_of event) (str "GET"));
      [now destruct (_ && _) |].
    destruct (pystr_eqb (method_of event) (str "POST")) eqn:E;
      [apply pystr_eqb_eq in E; contradiction | reflexivity].
Qed.

(** X19.  The second handler makes its two audit writes under one
    [try]: when the store refuses the event, the body is not written
    at all; otherwise both are written, the body as it came. *)
Theorem response_audit_stops_at_failure (cfg : config) (w : world)
        (event : gateway_event) :
  Response.stores (fst (Response.lambda_handler cfg w event))
  = match put_object w (str "event") (StoredEvent event) with
    | Some _ => [ (str "event", Response.DumpsOf event) ]
    | None => [ (str "event", Response.DumpsOf event);
                (str "body", Response.Raw (raw_body_of event)) ]
    end.
Proof.
  assert (Hs : forall t, Response.stores (Response.store_request w event
                                            (raw_body_of event) ++ t)
                         = Response.stores (Response.store_request w event
                                              (raw_body_of event))
                           ++ Response.stores t).
  { intros t. apply flat_map_app. }
  assert (Hsend : forall f b,
             Response.stores (Response.send_whatsapp_message cfg w f b) = []).
  { intros f b. unfold Response.send_whatsapp_message. cbn.
    destruct (http_request w _ _ _) as [e | resp]; [reflexivity |].
    destruct (bytes_decode w (snd resp)); reflexivity. }
  assert (Ha : Response.stores (Response.store_request w event (raw_body_of event))
               = match put_object w (str "event") (StoredEvent event) with
                 | Some _ => [ (str "event", Response.DumpsOf event) ]
                 | None => [ (str "event", Response.DumpsOf event);
                             (str "body", Response.Raw (raw_body_of event)) ]
                 end).
  { unfold Response.store_request. cbn [Response.stores flat_map app].
    destruct (put_object w (str "event") (StoredEvent event)); [reflexivity |].
    cbn [Response.stores flat_map app].
    destruct (put_object w (str "body") _); reflexivity. }
  unfold Response.lambda_handler. fold (raw_body_of event).
  destruct (pystr_eqb _ (str "GET")); [now destruct (_ && _) |].
  destruct (pystr_eqb _ (str "POST")); [| exact Ha].
  unfold Response.handle_post.
  destruct (json_loads w (raw_body_of event)) as [e | parsed];
    cbn [fst]; [rewrite Hs, Ha; cbn; now rewrite app_nil_r |].
  destruct (walk_messages parsed) as [e | messages];
    cbn [fst]; [rewrite Hs, Ha; cbn; now rewrite app_nil_r |].
  destruct (truthy messages);
    cbn [fst]; [| rewrite Hs, Ha; cbn; now rewrite app_nil_r].
  destruct (py_index0 messages) as [e | message];
    cbn [fst]; [rewrite Hs, Ha; cbn; now rewrite app_nil_r |].
  destruct (py_get message "from" PNone) as [e | from_number];
    cbn [fst]; [rewrite Hs, Ha; cbn; now rewrite app_nil_r |].
  rewrite Hs, Ha. cbn [Response.stores flat_map app].
  fold (Response.stores (Response.send_whatsapp_message cfg w from_number
                           (str "I received your message"))).
  rewrite Hsend. now rewrite app_nil_r.
Qed.

(** X20.  On a POST whose payload reaches a value, the second handler
    answers 200 with the body [Message processed] both when there is
    no message and when there is one; only in the second case does it
    post, once, the fixed text [I received your message] to the
    message's [from] member. *)
Theorem response_fixed_reply (cfg : config) (w : world) (event : gateway_event)
        (payload messages : pyval) :
  httpMethod event = Some (str "POST") ->
  json_loads w (raw_body_of event) = inr payload ->
  walk_messages payload = inr messages ->
  (truthy messages = false ->
   snd (Response.lambda_handler cfg w event)
   = json_response 200 "message" (str "Message processed")
   /\ Response.posts (fst (Response.lambda_handler cfg w event)) = [])
  /\ (forall m later,
         messages = PList (PDict m :: later) ->
         snd (Response.lambda_handler cfg w event)
         = json_response 200 "message" (str "Message processed")
         /\ Response.posts (fst (Response.lambda_handler cfg w event))
            = [ message_payload (spec_sender m)
                                (str "I received your message") ]).
Proof.
  intros Hm Hl Hw.
  assert (Hp : forall t, Response.posts (Response.store_request w event
                                           (raw_body_of event) ++ t)
                         = Response.posts t).
  { intros t. unfold Response.posts. rewrite flat_map_app.
    unfold Response.store_request. cbn [flat_map app].
    destruct (put_object w (str "event") _); [reflexivity |].
    cbn [flat_map app]. destruct (put_object w (str "body") _); reflexivity. }
  unfold Response.lambda_handler. fold (raw_body_of event). rewrite Hm.
  change (pystr_eqb (str "POST") (str "GET")) with false.
  change (pystr_eqb (str "POST") (str "POST")) with true. cbv iota.
  unfold Response.handle_post. rewrite Hl, Hw. split.
  - intros ->. cbn [fst snd]. now rewrite Hp.
  - intros m later ->. cbn [truthy py_index0]. rewrite py_get_dict.
    fold (spec_sender m). cbn [fst snd]. rewrite Hp.
    split; [reflexivity |].
    unfold Response.send_whatsapp_message. cbn [Response.posts flat_map app].
    destruct (http_request w _ _ _) as [e | resp]; [reflexivity |].
    destruct (bytes_decode w (snd resp)); reflexivity.
Qed.

Lemma response_fixed_reply_witness :
  Response.posts (fst (Response.lambda_handler sample_cfg quiet_world hi_event))
  = [ message_payload (PStr (str "15551234567"))
                      (str "I received your message") ].
Proof.
  assert (Hl : json_loads quiet_world (raw_body_of hi_event)
               = inr (delivery [ (str "messages", PList [hi_message]) ]))
    by (vm_compute; reflexivity).
  destruct (response_fixed_reply sample_cfg quiet_world hi_event _
              (PList [hi_message]) eq_refl Hl eq_refl) as [_ H].
  exact (proj2 (H _ [] eq_refl)).
Defined.

(** X21.  The second and the third handler give the same response on
    every event that is no POST, and on every event the second one
    answers with a 500. *)
Theorem response_agrees_with_bedrock (cfg : config) (w : world)
        (event : gateway_event) :
  (method_of event <> str "POST" ->
   result_of (lambda_handler cfg w event)
   = inr (snd (Response.lambda_handler cfg w event)))
  /\ (statusCode (snd (Response.lambda_handler cfg w event)) = 500%Z ->
      result_of (lambda_handler cfg w event)
      = inr (snd (Response.lambda_handler cfg w event))).
Proof.
  rewrite handler_result. unfold after_audit, Response.lambda_handler.
  fold (method_of event) (raw_body_of event).
  destruct (pystr_eqb (method_of event) (str "GET")).
  { destruct (_ && _); now split. }
  destruct (pystr_eqb (method_of event) (str "POST")) eqn:Ep;
    [| now split].
  apply pystr_eqb_eq in Ep. split; [intros H; contradiction |].
  rewrite result_try. unfold Response.handle_post, handle_post.
  destruct (json_loads w (raw_body_of event)) as [e | parsed];
    [reflexivity |].
  rewrite bind_lift_inr.
  destruct (walk_messages parsed) as [e | messages]; [reflexivity |].
  rewrite bind_lift_inr.
  destruct (truthy messages); cbn [negb snd]; [| discriminate].
  destruct (py_index0 messages) as [e | message]; [reflexivity |].
  rewrite bind_lift_inr.
  destruct (py_get message "from" PNone) as [e | from_number];
    [reflexivity |].
  cbn [snd]. discriminate.
Qed.

Lemma response_agrees_with_bedrock_witness :
  result_of (lambda_handler sample_cfg quiet_world delete_event)
  = inr (snd (Response.lambda_handler sample_cfg quiet_world delete_event))
  /\ result_of (lambda_handler sample_cfg quiet_world (post_event (str "{}")))
     = inr (snd (Response.lambda_handler sample_cfg quiet_world
                   (post_event (str "{}")))).
Proof.
  split.
  - apply (proj1 (response_agrees_with_bedrock sample_cfg quiet_world
                    delete_event)).
    discriminate.
  - apply (proj2 (response_agrees_with_bedrock sample_cfg quiet_world
                    (post_event (str "{}")))).
    vm_compute. reflexivity.
Defined.

(** X22.  The response of the second handler does not depend on what
    the audit store and the transport do. *)
Theorem response_ignores_collaborators (cfg : config) (w : world)
        (p : pystr -> stored -> option exn)
        (h : pystr -> pyval -> list (pystr * pystr) -> exn + (Z * list Byte.byte))
        (event : gateway_event) :
  snd (Response.lambda_handler cfg (with_transport (with_store w p) h) event)
  = snd (Response.lambda_handler cfg w event).
Proof.
  unfold Response.lambda_handler.
  destruct (pystr_eqb _ (str "GET")); [now destruct (_ && _) |].
  destruct (pystr_eqb _ (str "POST")); [| reflexivity].
  unfold Response.handle_post.
  change (json_loads (with_transport (with_store w p) h)) with (json_loads w).
  destruct (json_loads w _) as [e | parsed]; [reflexivity |].
  destruct (walk_messages parsed) as [e | messages]; [reflexivity |].
  destruct (truthy messages); [| reflexivity].
  destruct (py_index0 messages) as [e | message]; [reflexivity |].
  destruct (py_get message "from" PNone); reflexivity.
Qed.
